(** * Clock widget: time model and alarm model

    A shallow embedding of [src/js/models/TimeModel.js] and
    [src/js/models/AlarmModel.js], with the properties of the clock engine
    and of the alarm trigger stated over it.

    Layout:
    - [Js]        the fragment of JavaScript values and string primitives
                  the two classes rely on;
    - [RegExp]    anchored regular expressions and [RegExp.prototype.test];
    - [AlarmModel], [TimeModel]  the two classes, method by method;
    - the theorems. *)

From Stdlib Require Import ZArith List String Ascii Bool Lia.
From Stdlib Require Import DecimalString.
From Stdlib Require Import Floats.
Import ListNotations.

Local Open Scope string_scope.
Local Open Scope Z_scope.

(* ===================================================================== *)
(** * JavaScript values and primitives *)
(* ===================================================================== *)

Module Js.

(** The primitive values that reach the two models through their public
    methods. Numbers are IEEE-754 doubles, as in the language. *)
Inductive Value : Type :=
| Undefined
| Null
| Bool (b : bool)
| Number (x : float)
| Str (s : string).

(** [ToBoolean]: what [if (v)] and [!v] look at. *)
Definition truthy (v : Value) : bool :=
  match v with
  | Undefined | Null => false
  | Bool b => b
  | Number x => negb (PrimFloat.is_nan x || PrimFloat.is_zero x)
  | Str s => negb (s =? "")%string
  end.

(** [v === s] for a string literal [s]: no coercion takes place. *)
Definition strict_eq_string (v : Value) (s : string) : bool :=
  match v with
  | Str t => (t =? s)%string
  | _ => false
  end.

(** What [JSON.parse (JSON.stringify v)] gives back for a property value:
    a non-finite number is written as [null], a negative zero as [0], and
    an [undefined] property is dropped, so that reading it gives
    [undefined] again. *)
Definition json_roundtrip (v : Value) : Value :=
  match v with
  | Number x =>
      if PrimFloat.is_nan x || PrimFloat.is_infinity x then Null
      else if PrimFloat.is_zero x then Number PrimFloat.zero
      else Number x
  | _ => v
  end.

(** [String(n)] for an integral number [n]. *)
Definition String_of_int (n : Z) : string :=
  NilZero.string_of_int (Z.to_int n).

(** [s.padStart(len, fill)] for a one-character [fill]. *)
Fixpoint repeat_char (c : ascii) (n : nat) : string :=
  match n with
  | O => ""
  | S k => String c (repeat_char c k)
  end.

Definition padStart (len : nat) (fill : ascii) (s : string) : string :=
  repeat_char fill (len - String.length s) ++ s.

(** [s.split(sep)] for a one-character separator: the pieces between the
    occurrences of [sep], always at least one piece. *)
Fixpoint split (sep : ascii) (s : string) : list string :=
  match s with
  | "" => [""]
  | String c rest =>
      if Ascii.eqb c sep then "" :: split sep rest
      else match split sep rest with
           | [] => [String c ""]
           | piece :: pieces => String c piece :: pieces
           end
  end.

Definition is_digit (c : ascii) : bool :=
  (48 <=? nat_of_ascii c)%nat && (nat_of_ascii c <=? 57)%nat.

Fixpoint digits_value (acc : Z) (s : string) : option Z :=
  match s with
  | "" => Some acc
  | String c rest =>
      if is_digit c
      then digits_value (10 * acc + (Z.of_nat (nat_of_ascii c) - 48)) rest
      else None
  end.

(** [Number(s)] on the strings it is modelled for: a non-empty run of
    decimal digits denotes its decimal value (leading zeros allowed, no
    octal reading). That value is exact below 2^53; above, the double
    the language computes is still no calendar field. Every other string
    is [None]: the language gives [NaN] or a number this model does not
    represent, and a computation that meets one is left undetermined
    instead of guessed. *)
Definition Number_of_string (s : string) : option Z :=
  match s with
  | "" => None
  | _ => digits_value 0 s
  end.

(** An integral calendar field as a double; exact for the fields of a
    date, which are far below 2^53. *)
Definition float_of_int (n : Z) : float :=
  if n <? 0 then PrimFloat.opp (PrimFloat.of_uint63 (Uint63.of_Z (- n)))
  else PrimFloat.of_uint63 (Uint63.of_Z n).

End Js.

(* ===================================================================== *)
(** * Regular expressions *)
(* ===================================================================== *)

Module RegExp.

(** The constructs the alarm pattern uses: literals, character ranges
    [[a-b]], concatenation and alternation. *)
Inductive regex : Type :=
| Nothing
| Epsilon
| Lit (c : ascii)
| Range (lo hi : ascii)
| Cat (r1 r2 : regex)
| Alt (r1 r2 : regex).

Definition in_range (lo hi c : ascii) : bool :=
  (nat_of_ascii lo <=? nat_of_ascii c)%nat
  && (nat_of_ascii c <=? nat_of_ascii hi)%nat.

Fixpoint nullable (r : regex) : bool :=
  match r with
  | Nothing => false
  | Epsilon => true
  | Lit _ => false
  | Range _ _ => false
  | Cat r1 r2 => nullable r1 && nullable r2
  | Alt r1 r2 => nullable r1 || nullable r2
  end.

(** Brzozowski derivative: what remains to be matched after [c]. *)
Fixpoint deriv (c : ascii) (r : regex) : regex :=
  match r with
  | Nothing => Nothing
  | Epsilon => Nothing
  | Lit d => if Ascii.eqb c d then Epsilon else Nothing
  | Range lo hi => if in_range lo hi c then Epsilon else Nothing
  | Cat r1 r2 =>
      if nullable r1
      then Alt (Cat (deriv c r1) r2) (deriv c r2)
      else Cat (deriv c r1) r2
  | Alt r1 r2 => Alt (deriv c r1) (deriv c r2)
  end.

(** [/^r$/.test(s)]: with both anchors and no [m] flag the whole of [s]
    has to match; a trailing line break is not skipped. *)
Fixpoint test (r : regex) (s : string) : bool :=
  match s with
  | "" => nullable r
  | String c rest => test (deriv c r) rest
  end.

(** The language of a pattern, as a relation. *)
Inductive lang : regex -> string -> Prop :=
| lang_eps : lang Epsilon ""
| lang_lit c : lang (Lit c) (String c "")
| lang_range lo hi c : in_range lo hi c = true -> lang (Range lo hi) (String c "")
| lang_cat r1 r2 s1 s2 : lang r1 s1 -> lang r2 s2 -> lang (Cat r1 r2) (s1 ++ s2)
| lang_alt_l r1 r2 s : lang r1 s -> lang (Alt r1 r2) s
| lang_alt_r r1 r2 s : lang r2 s -> lang (Alt r1 r2) s.

End RegExp.

(* ===================================================================== *)
(** * Dates and time values *)
(* ===================================================================== *)

(** The calendar fields of a [Date], named after its getters. The model
    covers valid dates; the fields of an invalid one are [NaN]. *)
Record JsDate : Type := mkDate {
  getFullYear : Z;
  getMonth : Z;
  getDate : Z;
  getDay : Z;
  getHours : Z;
  getMinutes : Z;
  getSeconds : Z
}.

(** The fields of a date lie in the ranges the language fixes for them. *)
Definition calendar_date (d : JsDate) : Prop :=
  0 <= getMonth d < 12 /\ 1 <= getDate d <= 31 /\ 0 <= getDay d < 7 /\
  0 <= getHours d < 24 /\ 0 <= getMinutes d < 60 /\ 0 <= getSeconds d < 60.

(** The object [TimeModel.getTime] returns. [dayName] and [monthName] are
    array reads, [None] where the index is outside the array. *)
Record TimeValue : Type := mkTimeValue {
  hours : string;
  minutes : string;
  seconds : string;
  rawHours : Z;
  rawMinutes : Z;
  rawSeconds : Z;
  period : string;
  dayName : option string;
  monthName : option string;
  dayOfMonth : Z;
  year : Z;
  raw : JsDate
}.

(* ===================================================================== *)
(** * AlarmModel *)
(* ===================================================================== *)

Module AlarmModel.

(** The object held in [activeAlarm]. [createdAt] is the instant whose
    ISO-8601 rendering the source stores. *)
Record Alarm : Type := mkAlarm {
  id : Z;
  time : string;
  enabled : Js.Value;
  createdAt : Z
}.

(** The events the model dispatches, with their [detail]. *)
Inductive Event : Type :=
| alarmSet (detail : Alarm)
| alarmCleared
| alarmToggled (enabled : Js.Value)
| alarmPlayingChanged (playing : Js.Value).

(** [localStorage], as far as the model uses it: the entry under
    [CONFIG.STORAGE_KEYS.ALARMS], read back through [JSON.parse]. When
    the store is not [available] every access throws, and the model
    catches and logs the error. *)
Record Storage : Type := mkStorage {
  available : bool;
  alarms_item : option Alarm
}.

Record State : Type := mkState {
  alarms : list Alarm;
  activeAlarm : option Alarm;
  isPlaying : Js.Value;
  storage : Storage;
  dispatched : list Event   (* oldest first *)
}.

(** How a method call ends. *)
Inductive Completion : Type :=
| Normal
| Throw (message : string).

Definition dispatchEvent (e : Event) (st : State) : State :=
  mkState (alarms st) (activeAlarm st) (isPlaying st) (storage st)
          (dispatched st ++ [e])%list.

Definition stored (a : Alarm) : Alarm :=
  mkAlarm (id a) (time a) (Js.json_roundtrip (enabled a)) (createdAt a).

Definition _saveToStorage (st : State) : State :=
  if available (storage st)
  then mkState (alarms st) (activeAlarm st) (isPlaying st)
               (mkStorage true (option_map stored (activeAlarm st)))
               (dispatched st)
  else st.

Definition _loadFromStorage (st : State) : State :=
  if available (storage st)
  then match alarms_item (storage st) with
       | Some a => mkState (alarms st) (Some a) (isPlaying st) (storage st)
                           (dispatched st)
       | None => st
       end
  else st.

Definition constructor (sto : Storage) : State :=
  _loadFromStorage (mkState [] None (Js.Bool false) sto []).

(** [/^([0-1][0-9]|2[0-3]):[0-5][0-9]$/] *)
Definition time_regex : RegExp.regex :=
  RegExp.Cat
    (RegExp.Alt
       (RegExp.Cat (RegExp.Range "0" "1") (RegExp.Range "0" "9"))
       (RegExp.Cat (RegExp.Lit "2") (RegExp.Range "0" "3")))
    (RegExp.Cat (RegExp.Lit ":")
       (RegExp.Cat (RegExp.Range "0" "5") (RegExp.Range "0" "9"))).

Definition _isValidTimeFormat (time : string) : bool :=
  RegExp.test time_regex time.

(** The parameter default [enabled = true]: it stands in for a missing
    argument and for [undefined], and for nothing else. *)
Definition enabled_or_true (enabled : Js.Value) : Js.Value :=
  match enabled with
  | Js.Undefined => Js.Bool true
  | given => given
  end.

(** [setAlarm(time, enabled = true)]; the call [setAlarm(time)] is
    [setAlarm time Js.Undefined]. [now_id] and [now_created] are the two
    clock reads, [Date.now()] and [new Date()]. *)
Definition setAlarm (time : string) (enabled : Js.Value)
           (now_id now_created : Z) (st : State) : Completion * State :=
  if negb (_isValidTimeFormat time)
  then (Throw "Invalid time format. Expected HH:MM", st)
  else
    let a := mkAlarm now_id time (enabled_or_true enabled) now_created in
    let st1 := mkState (alarms st) (Some a) (isPlaying st) (storage st)
                       (dispatched st) in
    let st2 := _saveToStorage st1 in
    (Normal, dispatchEvent (alarmSet a) st2).

(** One operand of the match in [shouldTrigger]: a field compared with
    [===] to an element of [time.split(':').map(Number)]. A missing
    element is [undefined], equal to no number. *)
Definition field_matches (field : Z) (part : option (option Z)) : option bool :=
  match part with
  | None => Some false
  | Some None => None
  | Some (Some n) => Some (field =? n)
  end.

(** [a && b], the right operand evaluated only after a true left one. *)
Definition and_then (a : option bool) (b : option bool) : option bool :=
  match a with
  | Some true => b
  | other => other
  end.

Definition shouldTrigger (currentTime : TimeValue) (st : State) : option bool :=
  match activeAlarm st with
  | None => Some false
  | Some a =>
      if negb (Js.truthy (enabled a)) then Some false
      else
        let parts := map Js.Number_of_string (Js.split ":" (time a)) in
        let alarmHours := nth_error parts 0 in
        let alarmMinutes := nth_error parts 1 in
        and_then (field_matches (rawHours currentTime) alarmHours)
          (and_then (field_matches (rawMinutes currentTime) alarmMinutes)
             (Some (rawSeconds currentTime =? 0)))
  end.

Definition clearAlarm (st : State) : State :=
  let st1 := mkState (alarms st) None (Js.Bool false) (storage st)
                     (dispatched st) in
  dispatchEvent alarmCleared (_saveToStorage st1).

Definition toggleAlarm (enabled : Js.Value) (st : State) : State :=
  match activeAlarm st with
  | Some a =>
      let a' := mkAlarm (id a) (time a) enabled (createdAt a) in
      let st1 := mkState (alarms st) (Some a') (isPlaying st) (storage st)
                         (dispatched st) in
      dispatchEvent (alarmToggled enabled) (_saveToStorage st1)
  | None => st
  end.

Definition getAlarm (st : State) : option Alarm := activeAlarm st.

Definition setPlaying (playing : Js.Value) (st : State) : State :=
  dispatchEvent (alarmPlayingChanged playing)
    (mkState (alarms st) (activeAlarm st) playing (storage st) (dispatched st)).

(** The public mutators, as the labels of a transition system. *)
Inductive Op : Type :=
| OpSetAlarm (time : string) (enabled : Js.Value) (now_id now_created : Z)
| OpClearAlarm
| OpToggleAlarm (enabled : Js.Value)
| OpSetPlaying (playing : Js.Value).

Definition step (op : Op) (st : State) : State :=
  match op with
  | OpSetAlarm t e n1 n2 => snd (setAlarm t e n1 n2 st)
  | OpClearAlarm => clearAlarm st
  | OpToggleAlarm e => toggleAlarm e st
  | OpSetPlaying p => setPlaying p st
  end.

Definition run (ops : list Op) (st : State) : State :=
  fold_left (fun s op => step op s) ops st.

End AlarmModel.

(* ===================================================================== *)
(** * TimeModel *)
(* ===================================================================== *)

Module TimeModel.

(** What the browser provides and the model cannot compute: the system
    clock, read by read, and the calendar.
    - [Date_now k] is the value of the [k]-th call of [Date.now()] (or of
      [new Date()]) since the page was loaded;
    - [local_date ms] is [new Date(ms)], seen through its local getters;
    - [Intl_supports tz] tells whether [new Intl.DateTimeFormat] accepts
      [tz] as its [timeZone]; for any other string it throws a
      [RangeError];
    - [zone_date tz ms] is the date [getTime] rebuilds from what the
      formatter reports for [ms] in an accepted zone [tz]. *)
Record Host : Type := mkHost {
  Date_now : nat -> Z;
  local_date : Z -> JsDate;
  Intl_supports : string -> bool;
  zone_date : string -> Z -> JsDate
}.

(** The exceptions the model can meet. *)
Inductive Error : Type :=
| RangeError.

(** How a call ends: with a value, or with an exception thrown. *)
Inductive Completion (A : Type) : Type :=
| Returns (a : A)
| Throws (e : Error).

Arguments Returns {A} a.
Arguments Throws {A} e.

(** The function handed to [start], known by name only: a call of it is
    recorded with its argument and is taken to return. *)
Definition Callback : Type := nat.

Inductive Event : Type :=
| timezoneChanged (timezone : string)
| formatChanged (format : Js.Value)
| tick (detail : TimeValue).

(** What a run of the model does to the outside, in order. *)
Inductive Effect : Type :=
| Dispatched (e : Event)
| Called (f : Callback) (argument : TimeValue).

(** A pending [setTimeout]. Every timeout the model arms carries the same
    arrow function, [() => { this._onTick(); this._scheduleNextTick(); }]. *)
Record Timer : Type := mkTimer {
  handle : Z;
  delay : Z
}.

(** The instance fields. [callback] and [animationFrameId] are not set
    by the constructor: [None] is [undefined] (or [null]). *)
Record Fields : Type := mkFields {
  timezone : string;
  format24 : bool;
  lastSyncTime : Z;
  driftCorrection : Z;
  callback : option Callback;
  animationFrameId : option Z
}.

(** The browser side: how often the clock was read, the pending timeouts
    and animation-frame requests, and the effects so far. *)
Record Browser : Type := mkBrowser {
  clock_reads : nat;
  timers : list Timer;
  next_handle : Z;
  frame_requests : list Z;
  trace : list Effect   (* oldest first *)
}.

Record World : Type := mkWorld {
  this : Fields;
  browser : Browser
}.

Record HandAngles : Type := mkHandAngles {
  hour : float;
  minute : float;
  second : float
}.

(** ** A state and exception monad over the world

    A computation changes the world and returns or throws; what follows a
    throw does not run, and the world stays as the throw found it. *)

Definition M (A : Type) : Type := World -> Completion A * World.

Definition ret {A} (a : A) : M A := fun w => (Returns a, w).

Definition throw {A} (e : Error) : M A := fun w => (Throws e, w).

Definition bind {A B} (m : M A) (k : A -> M B) : M B :=
  fun w =>
    match m w with
    | (Returns a, w') => k a w'
    | (Throws e, w') => (Throws e, w')
    end.

Declare Scope js_scope.
Delimit Scope js_scope with js.
Notation "x <- m ;; k" := (bind m (fun x => k))
  (at level 61, m at next level, right associativity) : js_scope.
Notation "m ;; k" := (bind m (fun _ => k))
  (at level 61, right associativity) : js_scope.
Local Open Scope js_scope.

Definition get_this : M Fields := fun w => (Returns (this w), w).

Definition put_this (f : Fields) : M unit :=
  fun w => (Returns tt, mkWorld f (browser w)).

Definition modify_browser (g : Browser -> Browser) : M unit :=
  fun w => (Returns tt, mkWorld (this w) (g (browser w))).

Definition when (b : bool) (m : M unit) : M unit :=
  if b then m else ret tt.

Section WithHost.

Variable host : Host.

(** [Date.now()] *)
Definition now : M Z :=
  fun w =>
    let b := browser w in
    (Returns (Date_now host (clock_reads b)),
     mkWorld (this w)
             (mkBrowser (S (clock_reads b)) (timers b) (next_handle b)
                        (frame_requests b) (trace b))).

Definition log (e : Effect) : M unit :=
  modify_browser (fun b =>
    mkBrowser (clock_reads b) (timers b) (next_handle b)
              (frame_requests b) (trace b ++ [e])%list).

Definition dispatchEvent (e : Event) : M unit := log (Dispatched e).

(** [setTimeout(closure, delay)] *)
Definition setTimeout (delay : Z) : M Z :=
  fun w =>
    let b := browser w in
    (Returns (next_handle b),
     mkWorld (this w)
             (mkBrowser (clock_reads b)
                        (timers b ++ [mkTimer (next_handle b) delay])%list
                        (next_handle b + 1) (frame_requests b) (trace b))).

(** [cancelAnimationFrame(id)]: withdraws an animation-frame request;
    timeouts are not its business. *)
Definition cancelAnimationFrame (id : Z) : M unit :=
  modify_browser (fun b =>
    mkBrowser (clock_reads b) (timers b) (next_handle b)
              (filter (fun r => negb (r =? id)) (frame_requests b))
              (trace b)).

Definition constructor : M unit :=
  t <- now ;;
  put_this (mkFields "local" false t 0 None None).

Definition setTimezone (timezone : string) : M unit :=
  f <- get_this ;;
  put_this (mkFields timezone (format24 f) (lastSyncTime f)
                     (driftCorrection f) (callback f) (animationFrameId f)) ;;
  dispatchEvent (timezoneChanged timezone).

Definition getTimezone : M string :=
  f <- get_this ;; ret (timezone f).

Definition setFormat (format : Js.Value) : M unit :=
  f <- get_this ;;
  put_this (mkFields (timezone f) (Js.strict_eq_string format "24h")
                     (lastSyncTime f) (driftCorrection f) (callback f)
                     (animationFrameId f)) ;;
  dispatchEvent (formatChanged format).

Definition _padZero (num : Z) : string :=
  Js.padStart 2 "0" (Js.String_of_int num).

(** [array[i]] *)
Definition array_get {A} (l : list A) (i : Z) : option A :=
  if i <? 0 then None else nth_error l (Z.to_nat i).

Definition dayNames : list string :=
  ["Sunday"; "Monday"; "Tuesday"; "Wednesday"; "Thursday"; "Friday";
   "Saturday"].

Definition monthNames : list string :=
  ["January"; "February"; "March"; "April"; "May"; "June"; "July";
   "August"; "September"; "October"; "November"; "December"].

(** [hours % 12 || 12] *)
Definition to12 (hours : Z) : Z :=
  let r := Z.rem hours 12 in
  if r =? 0 then 12 else r.

(** The part of [getTime] after the date is known (source lines 80 to
    112). *)
Definition timeValue (format24 : bool) (date : JsDate) : TimeValue :=
  let hours0 := getHours date in
  let minutes := getMinutes date in
  let seconds := getSeconds date in
  let period := if negb format24
                then (if hours0 >=? 12 then "PM" else "AM")
                else "AM" in
  let hours := if negb format24 then to12 hours0 else hours0 in
  mkTimeValue (_padZero hours) (_padZero minutes) (_padZero seconds)
              hours minutes seconds period
              (array_get dayNames (getDay date))
              (array_get monthNames (getMonth date))
              (getDate date) (getFullYear date) date.

(** The [else] branch of [getTime] (source lines 56 to 77): the
    constructor of the formatter throws for a zone it does not know. *)
Definition zoned_date (timezone : string) (instant : Z) : M JsDate :=
  if Intl_supports host timezone
  then ret (zone_date host timezone instant)
  else throw RangeError.

Definition getTime : M TimeValue :=
  t <- now ;;
  f <- get_this ;;
  let instant := t + driftCorrection f in
  date <- (if (timezone f =? "local")%string
           then ret (local_date host instant)
           else zoned_date (timezone f) instant) ;;
  ret (timeValue (format24 f) date).

(** The arithmetic of [getHandAngles], in doubles. *)
Definition handAngles (time : TimeValue) : HandAngles :=
  let h := Js.float_of_int (rawHours time) in
  let m := Js.float_of_int (rawMinutes time) in
  let s := Js.float_of_int (rawSeconds time) in
  let secondAngle := ((s / 60) * 360)%float in
  let minuteAngle := ((m / 60) * 360 + (s / 60) * 6)%float in
  let hourAngle := ((h / 12) * 360 + (m / 60) * 30)%float in
  mkHandAngles hourAngle minuteAngle secondAngle.

Definition getHandAngles : M HandAngles :=
  time <- getTime ;;
  ret (handAngles time).

Definition _correctDrift : M unit :=
  t <- now ;;
  f <- get_this ;;
  let theoreticalTime := lastSyncTime f + 60000 in
  put_this (mkFields (timezone f) (format24 f) t
                     (driftCorrection f + (theoreticalTime - t))
                     (callback f) (animationFrameId f)).

Definition _onTick : M unit :=
  t <- now ;;
  f <- get_this ;;
  when (t - lastSyncTime f >? 60000) _correctDrift ;;
  f <- get_this ;;
  match callback f with
  | Some cb => tv <- getTime ;; log (Called cb tv)
  | None => ret tt
  end ;;
  tv <- getTime ;;
  dispatchEvent (tick tv).

(** [now % 1000] takes the sign of [now], as [Z.rem] does. *)
Definition _scheduleNextTick : M unit :=
  t <- now ;;
  let msUntilNextSecond := 1000 - Z.rem t 1000 in
  setTimeout msUntilNextSecond ;;
  ret tt.

(** The arrow function given to [setTimeout]. *)
Definition timeout_closure : M unit :=
  _onTick ;;
  _scheduleNextTick.

Definition start (cb : Callback) : M (option Z) :=
  f <- get_this ;;
  put_this (mkFields (timezone f) (format24 f) (lastSyncTime f)
                     (driftCorrection f) (Some cb) (animationFrameId f)) ;;
  _scheduleNextTick ;;
  f <- get_this ;;
  ret (animationFrameId f).

(** [if (this.animationFrameId)]: a handle that is set and not [0]. *)
Definition stop : M unit :=
  f <- get_this ;;
  match animationFrameId f with
  | Some id =>
      if id =? 0 then ret tt
      else
        cancelAnimationFrame id ;;
        put_this (mkFields (timezone f) (format24 f) (lastSyncTime f)
                           (driftCorrection f) (callback f) None)
  | None => ret tt
  end.

(** The browser runs a pending timeout: it leaves the list and its
    closure runs. An exception that leaves the closure is reported by the
    browser and goes no further: what the closure did up to there stays
    done. [None] when no timeout has this handle. *)
Definition fire (h : Z) (w : World) : option World :=
  let b := browser w in
  if existsb (fun t => handle t =? h) (timers b)
  then
    let b' := mkBrowser (clock_reads b)
                        (filter (fun t => negb (handle t =? h)) (timers b))
                        (next_handle b) (frame_requests b) (trace b) in
    Some (snd (timeout_closure (mkWorld (this w) b')))
  else None.

(** How many times the callback of [start] has run. *)
Definition calls (w : World) : nat :=
  List.length (filter (fun e => match e with Called _ _ => true | _ => false end)
                      (trace (browser w))).

(** A page that has just loaded: nothing pending, nothing done. *)
Definition fresh_browser : Browser := mkBrowser 0 [] 1 [] [].

Definition new_TimeModel : World :=
  snd (constructor (mkWorld (mkFields "" false 0 0 None None) fresh_browser)).

End WithHost.

End TimeModel.

(* ===================================================================== *)
(** * Specification vocabulary *)
(* ===================================================================== *)

(** The integers [0 .. n-1], for properties settled by running the code on
    every value of a calendar field. *)
Definition below (n : nat) : list Z := map Z.of_nat (seq 0 n).

Module AlarmSpec.

Import AlarmModel.

(** ** What "HH:MM" means, without the pattern *)

Definition digit (d : Z) : ascii := ascii_of_nat (48 + Z.to_nat d).

Definition digit_of (c : ascii) : Z := Z.of_nat (nat_of_ascii c) - 48.

Definition two_digits (n : Z) : string :=
  String (digit (n / 10)) (String (digit (n mod 10)) "").

Definition HHMM (h m : Z) : string := two_digits h ++ ":" ++ two_digits m.

(** An hour from 00 to 23, a colon, a minute from 00 to 59. *)
Definition valid_time (s : string) : Prop :=
  exists h m, 0 <= h < 24 /\ 0 <= m < 60 /\ s = HHMM h m.

(** A time value read at [h:m:s]. *)
Definition at_time (tv : TimeValue) (h m s : Z) : Prop :=
  rawHours tv = h /\ rawMinutes tv = m /\ rawSeconds tv = s.




(** [time.split(':').map(Number)] returns the hour and the minute. *)
Definition parts_ok (h m : Z) : bool :=
  match map Js.Number_of_string (Js.split ":" (HHMM h m)) with
  | [Some h'; Some m'] => (h' =? h) && (m' =? m)
  | _ => false
  end.

End AlarmSpec.

Module TimeSpec.

Import TimeModel.

(** A degree value in [[0, 360)]. *)
Definition in_circle (x : float) : bool := ((0 <=? x) && (x <? 360))%float.

(** [getTime] can return in these fields: the zone is 'local', which
    needs no formatter, or one the formatter accepts. *)
Definition zone_accepted (host : Host) (f : Fields) : bool :=
  (timezone f =? "local")%string || Intl_supports host (timezone f).

(** The date [getTime] works on when called in [w]. *)
Definition date_read (host : Host) (w : World) : JsDate :=
  let instant := Date_now host (clock_reads (browser w)) + driftCorrection (this w) in
  if (timezone (this w) =? "local")%string
  then local_date host instant
  else zone_date host (timezone (this w)) instant.

(** [w] after one read of the clock. *)
Definition clock_read (w : World) : World :=
  let b := browser w in
  mkWorld (this w)
          (mkBrowser (S (clock_reads b)) (timers b) (next_handle b)
                     (frame_requests b) (trace b)).

Definition second_of (s : Z) : float := (Js.float_of_int s / 60 * 360)%float.

Definition minute_of (m s : Z) : float :=
  (Js.float_of_int m / 60 * 360 + Js.float_of_int s / 60 * 6)%float.

Definition hour_of (h m : Z) : float :=
  (Js.float_of_int h / 12 * 360 + Js.float_of_int m / 60 * 30)%float.

(** The test [_onTick] makes before it corrects the drift. *)
Definition drifted (host : Host) (w : World) : bool :=
  Date_now host (clock_reads (browser w)) - lastSyncTime (this w) >? 60000.

End TimeSpec.

(** ** Concrete runs *)

Module Scenario.

Import TimeModel.

(** The zones of [CONFIG.TIMEZONES], 'local' left out. *)
Definition known_zone (tz : string) : bool :=
  existsb (String.eqb tz)
    ["America/New_York"; "America/Chicago"; "America/Denver";
     "America/Los_Angeles"; "Europe/London"; "Europe/Paris"; "Asia/Tokyo";
     "Asia/Shanghai"; "Asia/Hong_Kong"; "Australia/Sydney";
     "Pacific/Auckland"].

(** A browser whose clock stands still at [ms], in a zone where that
    instant reads [date], and which knows the zones above. *)
Definition fixed_host (ms : Z) (date : JsDate) : Host :=
  mkHost (fun _ => ms) (fun _ => date) known_zone (fun _ _ => date).

(** Monday 1 January 2024 at 13:00:00 and at 12:30:00. *)
Definition afternoon_host : Host :=
  fixed_host 1704114000000 (mkDate 2024 0 1 1 13 0 0).

Definition noon_host : Host :=
  fixed_host 1704112200000 (mkDate 2024 0 1 1 12 30 0).

(** The page loads at [1704110400000]; every later read of the clock is
    65 seconds after that: a tick due after 60 seconds that comes 5000 ms
    late. *)
Definition late_host : Host :=
  mkHost (fun k => match k with
                   | O => 1704110400000
                   | S _ => 1704110465000
                   end)
         (fun _ => mkDate 2024 0 1 1 12 1 5)
         known_zone
         (fun _ _ => mkDate 2024 0 1 1 12 1 5).

(** A clock that stands a quarter of a second after a full second. *)
Definition quarter_host : Host :=
  fixed_host 1704110400250 (mkDate 2024 0 1 1 12 0 0).

(** A model without stored alarm, and after [setAlarm("07:30")] and
    [setAlarm("13:00")]. *)
Definition no_alarm : AlarmModel.State :=
  AlarmModel.constructor (AlarmModel.mkStorage true None).

Definition alarm_0730 : AlarmModel.State :=
  snd (AlarmModel.setAlarm "07:30" (Js.Bool true) 1704094200000 1704094200000
         no_alarm).

Definition alarm_1300 : AlarmModel.State :=
  snd (AlarmModel.setAlarm "13:00" (Js.Bool true) 1704094200000 1704094200000
         no_alarm).

(** A time value with the given raw fields. *)
Definition tv_at (h m s : Z) : TimeValue :=
  TimeModel.timeValue true (mkDate 2024 0 1 1 h m s).

(** A session: a rejected time, an accepted one, a toggle, a second
    rejected time. *)
Definition session : list AlarmModel.Op :=
  [AlarmModel.OpSetAlarm "7:30" (Js.Bool true) 1 1;
   AlarmModel.OpSetAlarm "07:30" (Js.Bool true) 2 2;
   AlarmModel.OpToggleAlarm (Js.Bool false);
   AlarmModel.OpSetPlaying (Js.Bool true);
   AlarmModel.OpSetAlarm "24:00" (Js.Bool true) 3 3].

End Scenario.

(* ===================================================================== *)
(** * Configuration and preferences *)
(* ===================================================================== *)

(** The constants of [src/js/config.js] the models read. *)
Module CONFIG.

Module STORAGE_KEYS.
Definition THEME : string := "app_theme".
Definition TIME_FORMAT : string := "app_time_format".
Definition TIMEZONE : string := "app_timezone".
Definition SOUND_ENABLED : string := "app_sound_enabled".
Definition ALARMS : string := "app_alarms".
End STORAGE_KEYS.

Definition DEFAULT_THEME : string := "light".
Definition DEFAULT_TIME_FORMAT : string := "12h".
Definition DEFAULT_TIMEZONE : string := "local".
Definition DEFAULT_SOUND_ENABLED : bool := true.

End CONFIG.

(** [localStorage] as a key-value store of strings. A store that is not
    [available] throws on every access (storage disabled or denied). *)
Module LocalStorage.

Record Store : Type := mkStore {
  available : bool;
  items : list (string * string)
}.

(** [getItem(key)]; [None] is [null]. *)
Fixpoint lookup (key : string) (l : list (string * string)) : option string :=
  match l with
  | [] => None
  | (k, v) :: rest => if (k =? key)%string then Some v else lookup key rest
  end.

(** [setItem(key, value)]: an existing entry is overwritten in place, a new
    one is added. *)
Fixpoint update (key value : string) (l : list (string * string))
  : list (string * string) :=
  match l with
  | [] => [(key, value)]
  | (k, v) :: rest =>
      if (k =? key)%string then (k, value) :: rest
      else (k, v) :: update key value rest
  end.

End LocalStorage.

Module SettingsModel.

Import LocalStorage.

Inductive Event : Type :=
| themeChanged (theme : string)
| timeFormatChanged (format : string)
| timezoneChanged (timezone : string)
| soundChanged (enabled : bool).

Record State : Type := mkState {
  theme : string;
  timeFormat : string;
  timezone : string;
  soundEnabled : bool;
  storage : Store;
  dispatched : list Event   (* oldest first *)
}.

(** [array.includes(v)] for an array of strings: no coercion, so only a
    string can be found. *)
Definition includes (array : list string) (v : Js.Value) : option string :=
  match v with
  | Js.Str s => if existsb (String.eqb s) array then Some s else None
  | _ => None
  end.

(** [String(b)] *)
Definition String_of_bool (b : bool) : string :=
  if b then "true" else "false".

Definition dispatchEvent (e : Event) (st : State) : State :=
  mkState (theme st) (timeFormat st) (timezone st) (soundEnabled st)
          (storage st) (dispatched st ++ [e])%list.

Definition _saveToStorage (st : State) : State :=
  if available (storage st)
  then
    let i0 := items (storage st) in
    let i1 := update CONFIG.STORAGE_KEYS.THEME (theme st) i0 in
    let i2 := update CONFIG.STORAGE_KEYS.TIME_FORMAT (timeFormat st) i1 in
    let i3 := update CONFIG.STORAGE_KEYS.TIMEZONE (timezone st) i2 in
    let i4 := update CONFIG.STORAGE_KEYS.SOUND_ENABLED
                     (String_of_bool (soundEnabled st)) i3 in
    mkState (theme st) (timeFormat st) (timezone st) (soundEnabled st)
            (mkStore true i4) (dispatched st)
  else st.

(** [if (x) this.field = x]: a stored string replaces the field unless it
    is missing or empty. *)
Definition or_keep (stored : option string) (current : string) : string :=
  match stored with
  | Some s => if (s =? "")%string then current else s
  | None => current
  end.

Definition _loadFromStorage (st : State) : State :=
  if available (storage st)
  then
    let i := items (storage st) in
    mkState (or_keep (lookup CONFIG.STORAGE_KEYS.THEME i) (theme st))
            (or_keep (lookup CONFIG.STORAGE_KEYS.TIME_FORMAT i) (timeFormat st))
            (or_keep (lookup CONFIG.STORAGE_KEYS.TIMEZONE i) (timezone st))
            (match lookup CONFIG.STORAGE_KEYS.SOUND_ENABLED i with
             | Some sound => (sound =? "true")%string
             | None => soundEnabled st
             end)
            (storage st) (dispatched st)
  else st.

Definition constructor (sto : Store) : State :=
  _loadFromStorage
    (mkState CONFIG.DEFAULT_THEME CONFIG.DEFAULT_TIME_FORMAT
             CONFIG.DEFAULT_TIMEZONE CONFIG.DEFAULT_SOUND_ENABLED sto []).

Definition setTheme (theme : Js.Value) (st : State) : State :=
  match includes ["light"; "dark"] theme with
  | Some t =>
      dispatchEvent (themeChanged t)
        (_saveToStorage
           (mkState t (timeFormat st) (timezone st) (soundEnabled st)
                    (storage st) (dispatched st)))
  | None => st
  end.

Definition toggleTheme (st : State) : State :=
  let newTheme := if (theme st =? "light")%string then "dark" else "light" in
  setTheme (Js.Str newTheme) st.

Definition getTheme (st : State) : string := theme st.

Definition setTimeFormat (format : Js.Value) (st : State) : State :=
  match includes ["12h"; "24h"] format with
  | Some f =>
      dispatchEvent (timeFormatChanged f)
        (_saveToStorage
           (mkState (theme st) f (timezone st) (soundEnabled st)
                    (storage st) (dispatched st)))
  | None => st
  end.

Definition toggleTimeFormat (st : State) : State :=
  let newFormat := if (timeFormat st =? "12h")%string then "24h" else "12h" in
  setTimeFormat (Js.Str newFormat) st.

Definition getTimeFormat (st : State) : string := timeFormat st.

Definition setTimezone (timezone : string) (st : State) : State :=
  dispatchEvent (timezoneChanged timezone)
    (_saveToStorage
       (mkState (theme st) (timeFormat st) timezone (soundEnabled st)
                (storage st) (dispatched st))).

Definition getTimezone (st : State) : string := timezone st.

(** [Boolean(enabled)] is [Js.truthy]. *)
Definition setSoundEnabled (enabled : Js.Value) (st : State) : State :=
  let b := Js.truthy enabled in
  dispatchEvent (soundChanged b)
    (_saveToStorage
       (mkState (theme st) (timeFormat st) (timezone st) b
                (storage st) (dispatched st))).

Definition toggleSound (st : State) : State :=
  setSoundEnabled (Js.Bool (negb (soundEnabled st))) st.

Definition getSoundEnabled (st : State) : bool := soundEnabled st.

(** The public mutators. *)
Inductive Op : Type :=
| OpSetTheme (theme : Js.Value)
| OpToggleTheme
| OpSetTimeFormat (format : Js.Value)
| OpToggleTimeFormat
| OpSetTimezone (timezone : string)
| OpSetSoundEnabled (enabled : Js.Value)
| OpToggleSound.

Definition step (op : Op) (st : State) : State :=
  match op with
  | OpSetTheme v => setTheme v st
  | OpToggleTheme => toggleTheme st
  | OpSetTimeFormat v => setTimeFormat v st
  | OpToggleTimeFormat => toggleTimeFormat st
  | OpSetTimezone tz => setTimezone tz st
  | OpSetSoundEnabled v => setSoundEnabled v st
  | OpToggleSound => toggleSound st
  end.

Definition run (ops : list Op) (st : State) : State :=
  fold_left (fun s op => step op s) ops st.

End SettingsModel.

(* ===================================================================== *)
(** * Vocabulary for the further properties *)
(* ===================================================================== *)

Module AlarmExtra.

Import AlarmModel.

(** What the model holds in memory, the store left aside. *)
Definition memory (st : State) : list Alarm * option Alarm * Js.Value * list Event :=
  (alarms st, activeAlarm st, isPlaying st, dispatched st).

(** A working store holds what [JSON] makes of the alarm in memory. *)
Definition in_sync (st : State) : Prop :=
  available (storage st) = true ->
  alarms_item (storage st) = option_map stored (activeAlarm st).

(** The stored alarm is one [JSON.parse] can return. *)
Definition storage_normal (sto : Storage) : Prop :=
  match alarms_item sto with
  | None => True
  | Some a => stored a = a
  end.

(** The calls that return without doing anything: a rejected time, and a
    toggle without alarm. *)
Definition ignored (op : Op) (st : State) : bool :=
  match op with
  | OpSetAlarm t _ _ _ => negb (_isValidTimeFormat t)
  | OpToggleAlarm _ =>
      match activeAlarm st with
      | None => true
      | Some _ => false
      end
  | _ => false
  end.

(** The seconds of the minute [h:m] at which the alarm triggers, where
    [tvs s] is the time value of second [s]. *)
Definition triggering_seconds (tvs : Z -> TimeValue) (st : State) : list Z :=
  filter (fun s => match shouldTrigger (tvs s) st with
                   | Some true => true
                   | _ => false
                   end)
         (below 60).

End AlarmExtra.

Module TimeExtra.

Import TimeModel TimeSpec.

(** Two angles that point the same way: equal, or one full turn apart. *)
Definition same_direction (x y : float) : bool :=
  ((x =? y) || (x =? y + 360) || (y =? x + 360))%float.

(** The date [getTime] reads when the clock shows [t]. *)
Definition date_at (host : Host) (f : Fields) (t : Z) : JsDate :=
  let instant := t + driftCorrection f in
  if (timezone f =? "local")%string
  then local_date host instant
  else zone_date host (timezone f) instant.

(** The time value [getTime] returns at the [k]-th read of the clock. *)
Definition snapshot (host : Host) (f : Fields) (k : nat) : TimeValue :=
  timeValue (format24 f) (date_at host f (Date_now host k)).

(** Pending timeouts have distinct handles, all handed out already. *)
Definition timers_well_formed (b : Browser) : Prop :=
  NoDup (map handle (timers b)) /\
  Forall (fun t => handle t < next_handle b) (timers b).

(** How many [tick] events were dispatched. *)
Definition ticks (w : World) : nat :=
  List.length (filter (fun e => match e with
                                | Dispatched (tick _) => true
                                | _ => false
                                end)
                      (trace (browser w))).

(** The browser runs the oldest pending timeout. *)
Definition fire_pending (host : Host) (w : World) : option World :=
  match timers (browser w) with
  | t :: _ => fire host (handle t) w
  | [] => None
  end.

(** [n] timeouts run one after the other. *)
Fixpoint run_ticks (host : Host) (n : nat) (w : World) : option World :=
  match n with
  | O => Some w
  | S k =>
      match fire_pending host w with
      | Some w' => run_ticks host k w'
      | None => None
      end
  end.

(** The padded string of a field is two characters wide and reads back as
    the field. *)
Definition padded_ok (n : Z) : bool :=
  (String.length (_padZero n) =? 2)%nat
  && match Js.Number_of_string (_padZero n) with
     | Some k => k =? n
     | None => false
     end.

(** Two entries of an array of names differ unless their indices agree. *)
Definition distinct_at (l : list string) (i j : Z) : bool :=
  match array_get l i, array_get l j with
  | Some a, Some b => negb (a =? b)%string || (i =? j)
  | _, _ => false
  end.

(** The hour angles the two display formats give for [h:m] point the same
    way. *)
Definition hour_positions_agree (h m : Z) : bool :=
  same_direction (hour_of h m) (hour_of h m)
  && same_direction (hour_of h m) (hour_of (to12 h) m)
  && same_direction (hour_of (to12 h) m) (hour_of h m)
  && same_direction (hour_of (to12 h) m) (hour_of (to12 h) m).

(** The angles grow from one second, minute or hour to the next. *)
Definition seconds_advance (m s : Z) : bool :=
  (second_of s <? second_of (s + 1))%float
  && (minute_of m s <? minute_of m (s + 1))%float.

Definition minutes_advance (h m : Z) : bool :=
  (minute_of m 59 <? minute_of (m + 1) 0)%float
  && (hour_of h m <? hour_of h (m + 1))%float.

Definition hours_advance (h : Z) : bool :=
  (hour_of h 59 <? hour_of (h + 1) 0)%float.

(** One loop is pending and [cb] is registered. *)
Definition one_loop (cb : Callback) (w : World) : Prop :=
  callback (this w) = Some cb /\ timers_well_formed (browser w) /\
  List.length (timers (browser w)) = 1%nat.

End TimeExtra.

Module SettingsSpec.

Import LocalStorage SettingsModel.

(** The four preferences, the store and the events left aside. *)
Definition settings (st : State) : string * string * string * bool :=
  (theme st, timeFormat st, timezone st, soundEnabled st).

(** The keys [_saveToStorage] writes. *)
Definition settings_keys : list string :=
  [CONFIG.STORAGE_KEYS.THEME; CONFIG.STORAGE_KEYS.TIME_FORMAT;
   CONFIG.STORAGE_KEYS.TIMEZONE; CONFIG.STORAGE_KEYS.SOUND_ENABLED].

(** The string fields are not empty. *)
Definition fields_nonempty (st : State) : Prop :=
  theme st <> "" /\ timeFormat st <> "" /\ timezone st <> "".

(** A working store from which a new model reads the settings in memory. *)
Definition reloadable (st : State) : Prop :=
  available (storage st) = true /\ fields_nonempty st /\
  settings (constructor (storage st)) = settings st.

(** The calls that return without doing anything: a theme or a format that
    is not one of the two known ones. *)
Definition ignored (op : Op) : bool :=
  match op with
  | OpSetTheme v =>
      match includes ["light"; "dark"] v with Some _ => false | None => true end
  | OpSetTimeFormat v =>
      match includes ["12h"; "24h"] v with Some _ => false | None => true end
  | _ => false
  end.

End SettingsSpec.

Module SettingsScenario.
Import LocalStorage SettingsModel.

(** A store that holds only the alarm of another model. *)
Definition alarm_only : Store :=
  mkStore true [(CONFIG.STORAGE_KEYS.ALARMS, "{}")].

(** A session: dark theme, an unknown theme, 24-hour format, Tokyo, sound
    off. *)
Definition preferences : list Op :=
  [OpSetTheme (Js.Str "dark"); OpSetTheme (Js.Str "blue");
   OpToggleTimeFormat; OpSetTimezone "Asia/Tokyo"; OpToggleSound].
End SettingsScenario.

(* ===================================================================== *)
(** * Checking a property on every value of a field *)
(* ===================================================================== *)

Lemma below_In (n : nat) (z : Z) : 0 <= z < Z.of_nat n -> In z (below n).
Proof.
  intros H. unfold below. apply in_map_iff. exists (Z.to_nat z). split.
  - lia.
  - apply in_seq. lia.
Qed.

Lemma forall_below (P : Z -> bool) (n : nat) :
  forallb P (below n) = true -> forall z, 0 <= z < Z.of_nat n -> P z = true.
Proof.
  intros H z Hz. rewrite forallb_forall in H. apply H, below_In, Hz.
Qed.

Lemma forall_below2 (P : Z -> Z -> bool) (n k : nat) :
  forallb (fun x => forallb (P x) (below k)) (below n) = true ->
  forall x y, 0 <= x < Z.of_nat n -> 0 <= y < Z.of_nat k -> P x y = true.
Proof.
  intros H x y Hx Hy.
  apply (forall_below (P x) k); [|exact Hy].
  apply (forall_below (fun x => forallb (P x) (below k)) n H x Hx).
Qed.

(* ===================================================================== *)
(** * The matcher decides the language of a pattern *)
(* ===================================================================== *)

Module RegExpFacts.

Import RegExp.

Lemma append_empty (s1 s2 : string) : s1 ++ s2 = "" -> s1 = "" /\ s2 = "".
Proof. destruct s1; simpl; intros H; [auto | discriminate]. Qed.

(** [nullable] decides whether the empty string is in the language. *)
Lemma nullable_lang r : nullable r = true <-> lang r "".
Proof.
  split.
  - induction r; simpl; intros H; try discriminate.
    + constructor.
    + apply andb_true_iff in H as [H1 H2].
      change "" with ("" ++ ""). constructor; auto.
    + apply orb_true_iff in H as [H|H]; [apply lang_alt_l | apply lang_alt_r]; auto.
  - intros H. remember "" as s eqn:E.
    induction H; simpl; try discriminate; auto.
    + apply append_empty in E as [-> ->]. rewrite IHlang1, IHlang2; auto.
    + rewrite IHlang; auto.
    + rewrite IHlang; auto using orb_true_r.
Qed.

(** The derivative by [c] holds the rests of the members that start with
    [c], and nothing else. *)
Lemma lang_deriv r c s : lang r (String c s) -> lang (deriv c r) s.
Proof.
  intros H. remember (String c s) as t eqn:E. revert c s E.
  induction H; intros c' s' E; simpl.
  - discriminate.
  - injection E as -> <-. rewrite Ascii.eqb_refl. constructor.
  - injection E as -> <-. rewrite H. constructor.
  - destruct s1 as [|a s1]; simpl in E.
    + subst s2. apply nullable_lang in H. rewrite H.
      apply lang_alt_r. auto.
    + injection E as -> <-.
      assert (L : lang (Cat (deriv c' r1) r2) (s1 ++ s2)) by (constructor; auto).
      destruct (nullable r1); [apply lang_alt_l|]; exact L.
  - apply lang_alt_l; auto.
  - apply lang_alt_r; auto.
Qed.

Lemma deriv_lang r : forall c s, lang (deriv c r) s -> lang r (String c s).
Proof.
  induction r; intros a s H; simpl in H.
  - inversion H.
  - inversion H.
  - destruct (Ascii.eqb a c) eqn:E; inversion H; subst.
    apply Ascii.eqb_eq in E as ->. constructor.
  - destruct (in_range lo hi a) eqn:E; inversion H; subst.
    constructor; exact E.
  - destruct (nullable r1) eqn:N.
    + inversion H; subst.
      * match goal with K : lang (Cat _ _) _ |- _ => inversion K; subst end.
        change (String a (s1 ++ s2)) with (String a s1 ++ s2).
        constructor; auto.
      * change (String a s) with ("" ++ String a s).
        constructor; [apply nullable_lang; exact N | auto].
    + inversion H; subst.
      change (String a (s1 ++ s2)) with (String a s1 ++ s2).
      constructor; auto.
  - inversion H; subst; [apply lang_alt_l | apply lang_alt_r]; auto.
Qed.

(** [test] accepts exactly the members of the language. *)
Lemma test_lang s : forall r, test r s = true <-> lang r s.
Proof.
  induction s as [|c s IH]; intros r; simpl.
  - apply nullable_lang.
  - rewrite IH. split; [apply deriv_lang | apply lang_deriv].
Qed.

Lemma lang_lit_inv c s : lang (Lit c) s -> s = String c "".
Proof. inversion 1; reflexivity. Qed.

Lemma lang_range_inv lo hi s :
  lang (Range lo hi) s -> exists c, s = String c "" /\ in_range lo hi c = true.
Proof. inversion 1; subst; eauto. Qed.

Lemma lang_cat_inv r1 r2 s :
  lang (Cat r1 r2) s -> exists s1 s2, s = s1 ++ s2 /\ lang r1 s1 /\ lang r2 s2.
Proof. inversion 1; subst; eauto. Qed.

Lemma lang_alt_inv r1 r2 s : lang (Alt r1 r2) s -> lang r1 s \/ lang r2 s.
Proof. inversion 1; subst; auto. Qed.

End RegExpFacts.

(* ===================================================================== *)
(** * Facts about the alarm model *)
(* ===================================================================== *)

Module AlarmFacts.

Import RegExp RegExpFacts AlarmModel AlarmSpec.

(** A character of a digit range is the digit of its value. *)
Lemma in_range_digit lo hi c :
  in_range lo hi c = true ->
  (48 <= nat_of_ascii lo)%nat ->
  c = digit (digit_of c) /\
  Z.of_nat (nat_of_ascii lo) - 48 <= digit_of c <= Z.of_nat (nat_of_ascii hi) - 48.
Proof.
  unfold in_range, digit, digit_of. intros H Hlo.
  apply andb_true_iff in H as [H1 H2].
  apply Nat.leb_le in H1, H2. split; [|lia].
  replace (48 + Z.to_nat (Z.of_nat (nat_of_ascii c) - 48))%nat
    with (nat_of_ascii c) by lia.
  symmetry. apply ascii_nat_embedding.
Qed.

Lemma two_digits_compose a b :
  0 <= a -> 0 <= b < 10 -> two_digits (10 * a + b) = String (digit a) (String (digit b) "").
Proof.
  intros Ha Hb. unfold two_digits.
  replace ((10 * a + b) / 10) with a by (apply Z.div_unique with b; lia).
  replace ((10 * a + b) mod 10) with b by (apply Z.mod_unique with a; lia).
  reflexivity.
Qed.

Lemma valid_time_matches h m :
  0 <= h < 24 -> 0 <= m < 60 -> _isValidTimeFormat (HHMM h m) = true.
Proof.
  intros Hh Hm.
  apply (forall_below2 (fun h m => _isValidTimeFormat (HHMM h m)) 24 60);
    [vm_compute; reflexivity | exact Hh | exact Hm].
Qed.

(** The pattern of the source accepts exactly the times "HH:MM". *)
Lemma _isValidTimeFormat_iff s : _isValidTimeFormat s = true <-> valid_time s.
Proof.
  split.
  - unfold _isValidTimeFormat, time_regex. rewrite test_lang. intros H.
    apply lang_cat_inv in H as (hh & rest & -> & Hh & Hrest).
    apply lang_cat_inv in Hrest as (colon & mm & -> & Hc & Hmm).
    apply lang_lit_inv in Hc as ->.
    apply lang_cat_inv in Hmm as (m1 & m2 & -> & Hm1 & Hm2).
    apply lang_range_inv in Hm1 as (c & -> & Rc).
    apply lang_range_inv in Hm2 as (d & -> & Rd).
    apply in_range_digit in Rc as [Ec Bc]; [|vm_compute; lia].
    apply in_range_digit in Rd as [Ed Bd]; [|vm_compute; lia].
    change (Z.of_nat (nat_of_ascii "0") - 48) with 0 in *.
    change (Z.of_nat (nat_of_ascii "5") - 48) with 5 in *.
    change (Z.of_nat (nat_of_ascii "9") - 48) with 9 in *.
    assert (Em : String c "" ++ String d "" = two_digits (10 * digit_of c + digit_of d)).
    { rewrite two_digits_compose by lia. simpl. rewrite <- Ec, <- Ed. reflexivity. }
    apply lang_alt_inv in Hh as [Hh|Hh];
      apply lang_cat_inv in Hh as (h1 & h2 & -> & Hh1 & Hh2).
    + apply lang_range_inv in Hh1 as (a & -> & Ra).
      apply lang_range_inv in Hh2 as (b & -> & Rb).
      apply in_range_digit in Ra as [Ea Ba]; [|vm_compute; lia].
      apply in_range_digit in Rb as [Eb Bb]; [|vm_compute; lia].
      change (Z.of_nat (nat_of_ascii "0") - 48) with 0 in *.
      change (Z.of_nat (nat_of_ascii "1") - 48) with 1 in *.
      change (Z.of_nat (nat_of_ascii "9") - 48) with 9 in *.
      exists (10 * digit_of a + digit_of b), (10 * digit_of c + digit_of d).
      split; [lia|]. split; [lia|].
      unfold HHMM. rewrite <- Em. rewrite two_digits_compose by lia.
      simpl. rewrite <- Ea, <- Eb. reflexivity.
    + apply lang_lit_inv in Hh1 as ->.
      apply lang_range_inv in Hh2 as (b & -> & Rb).
      apply in_range_digit in Rb as [Eb Bb]; [|vm_compute; lia].
      change (Z.of_nat (nat_of_ascii "0") - 48) with 0 in *.
      change (Z.of_nat (nat_of_ascii "3") - 48) with 3 in *.
      exists (10 * 2 + digit_of b), (10 * digit_of c + digit_of d).
      split; [lia|]. split; [lia|].
      unfold HHMM. rewrite <- Em. rewrite two_digits_compose by lia.
      simpl. rewrite <- Eb. reflexivity.
  - intros (h & m & Hh & Hm & ->). apply valid_time_matches; assumption.
Qed.

Lemma not_valid_time t : _isValidTimeFormat t = false -> ~ valid_time t.
Proof.
  intros H V. apply _isValidTimeFormat_iff in V. congruence.
Qed.

(** Splitting a valid time at the colon and converting the pieces gives
    back the hour and the minute. *)
Lemma split_HHMM h m :
  0 <= h < 24 -> 0 <= m < 60 ->
  map Js.Number_of_string (Js.split ":" (HHMM h m)) = [Some h; Some m].
Proof.
  intros Hh Hm.
  assert (H : parts_ok h m = true).
  { apply (forall_below2 parts_ok 24 60); [vm_compute; reflexivity | exact Hh | exact Hm]. }
  unfold parts_ok in H.
  destruct (map Js.Number_of_string (Js.split ":" (HHMM h m)))
    as [|[x|] [|[y|] [|? ?]]]; try discriminate.
  apply andb_true_iff in H as [Hx Hy].
  apply Z.eqb_eq in Hx, Hy. subst. reflexivity.
Qed.

(** [shouldTrigger] with an enabled alarm at [h:m]. *)
Lemma shouldTrigger_enabled tv st a h m :
  activeAlarm st = Some a -> Js.truthy (enabled a) = true ->
  0 <= h < 24 -> 0 <= m < 60 -> time a = HHMM h m ->
  shouldTrigger tv st =
  Some ((rawHours tv =? h) && (rawMinutes tv =? m) && (rawSeconds tv =? 0)).
Proof.
  intros Ha He Hh Hm Ht. unfold shouldTrigger.
  rewrite Ha, He, Ht, split_HHMM by assumption. simpl.
  destruct (rawHours tv =? h); simpl; [|reflexivity].
  destruct (rawMinutes tv =? m); reflexivity.
Qed.

Lemma shouldTrigger_off tv st :
  activeAlarm st = None \/
  (exists a, activeAlarm st = Some a /\ Js.truthy (enabled a) = false) ->
  shouldTrigger tv st = Some false.
Proof.
  unfold shouldTrigger. intros [H | (a & H & E)]; rewrite H; [|rewrite E]; reflexivity.
Qed.

Lemma setAlarm_valid t e n1 n2 st :
  _isValidTimeFormat t = true ->
  setAlarm t e n1 n2 st =
  (Normal,
   dispatchEvent (alarmSet (mkAlarm n1 t (enabled_or_true e) n2))
     (_saveToStorage (mkState (alarms st)
                              (Some (mkAlarm n1 t (enabled_or_true e) n2))
                              (isPlaying st) (storage st) (dispatched st)))).
Proof. intros H. unfold setAlarm. rewrite H. reflexivity. Qed.

Lemma setAlarm_invalid t e n1 n2 st :
  _isValidTimeFormat t = false ->
  setAlarm t e n1 n2 st = (Throw "Invalid time format. Expected HH:MM", st).
Proof. intros H. unfold setAlarm. rewrite H. reflexivity. Qed.

Lemma activeAlarm_save st : activeAlarm (_saveToStorage st) = activeAlarm st.
Proof. unfold _saveToStorage. destruct (available (storage st)); reflexivity. Qed.

Lemma activeAlarm_dispatch e st : activeAlarm (dispatchEvent e st) = activeAlarm st.
Proof. reflexivity. Qed.






End AlarmFacts.

(* ===================================================================== *)
(** * Facts about the time model *)
(* ===================================================================== *)

Module TimeFacts.

Import TimeModel TimeSpec.

(** The two tests [getTime] makes on the zone, case by case. *)
Ltac zone_cases host w :=
  destruct (timezone (this w) =? "local")%string eqn:?Local;
  [| destruct (Intl_supports host (timezone (this w))) eqn:?Known ].

(** [getTime] reads the clock once; then it returns the formatted date of
    an accepted zone, or throws. *)
Lemma getTime_run host w :
  getTime host w =
  (if zone_accepted host (this w)
   then Returns (timeValue (format24 (this w)) (date_read host w))
   else Throws RangeError,
   clock_read w).
Proof.
  unfold getTime, zoned_date, zone_accepted, date_read, bind, now, get_this, ret, throw.
  simpl. zone_cases host w; reflexivity.
Qed.

Lemma getTime_returns host w :
  zone_accepted host (this w) = true ->
  getTime host w =
  (Returns (timeValue (format24 (this w)) (date_read host w)), clock_read w).
Proof. intros A. rewrite getTime_run, A. reflexivity. Qed.

Lemma getTime_throws host w :
  zone_accepted host (this w) = false ->
  getTime host w = (Throws RangeError, clock_read w).
Proof. intros A. rewrite getTime_run, A. reflexivity. Qed.

Lemma getHandAngles_run host w :
  getHandAngles host w =
  (if zone_accepted host (this w)
   then Returns (handAngles (timeValue (format24 (this w)) (date_read host w)))
   else Throws RangeError,
   clock_read w).
Proof.
  unfold getHandAngles, bind. rewrite getTime_run.
  destruct (zone_accepted host (this w)); reflexivity.
Qed.

Lemma timeValue_raw fmt date : raw (timeValue fmt date) = date.
Proof. reflexivity. Qed.

Lemma timeValue_rawMinutes fmt date : rawMinutes (timeValue fmt date) = getMinutes date.
Proof. reflexivity. Qed.

Lemma timeValue_rawSeconds fmt date : rawSeconds (timeValue fmt date) = getSeconds date.
Proof. reflexivity. Qed.

Lemma timeValue_rawHours fmt date :
  rawHours (timeValue fmt date) =
  if fmt then getHours date else to12 (getHours date).
Proof. destruct fmt; reflexivity. Qed.

Lemma to12_range h : 0 <= h < 24 -> 1 <= to12 h <= 12.
Proof.
  intros H. unfold to12.
  pose proof (Z.rem_bound_pos h 12 ltac:(lia) ltac:(lia)).
  destruct (Z.rem h 12 =? 0) eqn:E; [lia|].
  apply Z.eqb_neq in E. lia.
Qed.

Lemma handAngles_eq tv :
  handAngles tv =
  mkHandAngles (hour_of (rawHours tv) (rawMinutes tv))
               (minute_of (rawMinutes tv) (rawSeconds tv))
               (second_of (rawSeconds tv)).
Proof. reflexivity. Qed.

(** The angles, computed in doubles for every value of the fields. *)
Lemma second_in_circle s : 0 <= s < 60 -> in_circle (second_of s) = true.
Proof.
  apply (forall_below (fun s => in_circle (second_of s)) 60).
  vm_compute. reflexivity.
Qed.

Lemma minute_in_circle m s :
  0 <= m < 60 -> 0 <= s < 60 -> in_circle (minute_of m s) = true.
Proof.
  apply (forall_below2 (fun m s => in_circle (minute_of m s)) 60 60).
  vm_compute. reflexivity.
Qed.

Lemma hour_in_circle h m :
  0 <= h < 24 -> 0 <= m < 60 -> in_circle (hour_of h m) = (h <? 12).
Proof.
  intros Hh Hm.
  assert (E : Bool.eqb (in_circle (hour_of h m)) (h <? 12) = true).
  { apply (forall_below2 (fun h m => Bool.eqb (in_circle (hour_of h m)) (h <? 12)) 24 60);
      [vm_compute; reflexivity | exact Hh | exact Hm]. }
  apply Bool.eqb_prop, E.
Qed.

(** The scheduler, method by method. *)
Lemma _correctDrift_run host w :
  _correctDrift host w =
  (Returns tt,
   mkWorld (mkFields (timezone (this w)) (format24 (this w))
                     (Date_now host (clock_reads (browser w)))
                     (driftCorrection (this w)
                      + (lastSyncTime (this w) + 60000
                         - Date_now host (clock_reads (browser w))))
                     (callback (this w)) (animationFrameId (this w)))
           (browser (clock_read w))).
Proof. reflexivity. Qed.

Lemma _scheduleNextTick_run host w :
  _scheduleNextTick host w =
  (Returns tt,
   let b := browser w in
   mkWorld (this w)
           (mkBrowser (S (clock_reads b))
                      (timers b ++ [mkTimer (next_handle b)
                         (1000 - Z.rem (Date_now host (clock_reads b)) 1000)])
                      (next_handle b + 1) (frame_requests b) (trace b))).
Proof. reflexivity. Qed.

(** The steps of [_onTick], run on a world [w]: the bindings reduce, and
    the tests on the drift, the callback and the zone are told apart. *)
Ltac run_onTick host w :=
  unfold _onTick, getTime, zoned_date, bind, when, now, get_this, ret, throw,
    log, dispatchEvent, modify_browser;
  simpl;
  destruct (Date_now host (clock_reads (browser w)) - lastSyncTime (this w) >? 60000);
  simpl; destruct (callback (this w)); simpl;
  zone_cases host w;
  repeat (simpl;
          match goal with
          | H : (timezone _ =? "local")%string = _ |- _ => rewrite H
          | H : Intl_supports _ _ = _ |- _ => rewrite H
          end);
  simpl.

(** The fields after a tick: the drift correction is made before
    [getTime] is called, so a throw does not undo it. *)
Lemma _onTick_fields host w :
  let w' := snd (_onTick host w) in
  this w' =
  if drifted host w
  then this (snd (_correctDrift host (clock_read w)))
  else this w.
Proof.
  unfold drifted. run_onTick host w; reflexivity.
Qed.

(** A tick arms and cancels nothing; it reads the clock two to four
    times. *)
Lemma _onTick_browser host w :
  let b := browser w in
  let b' := browser (snd (_onTick host w)) in
  timers b' = timers b /\ next_handle b' = next_handle b /\
  frame_requests b' = frame_requests b /\
  (clock_reads b + 2 <= clock_reads b' <= clock_reads b + 4)%nat.
Proof.
  run_onTick host w; repeat split; lia.
Qed.

(** A tick returns exactly when the zone is accepted; otherwise it throws
    the [RangeError] of [getTime]. *)
Lemma _onTick_completion host w :
  fst (_onTick host w) =
  if zone_accepted host (this w) then Returns tt else Throws RangeError.
Proof.
  unfold zone_accepted. run_onTick host w; reflexivity.
Qed.

Lemma _onTick_calls host w cb :
  zone_accepted host (this w) = true ->
  callback (this w) = Some cb ->
  calls (snd (_onTick host w)) = S (calls w).
Proof.
  unfold zone_accepted. intros A C. unfold calls.
  run_onTick host w; try discriminate;
    rewrite <- ?app_assoc, filter_app, length_app; simpl; lia.
Qed.

(** A tick that throws has called nothing and dispatched nothing. *)
Lemma _onTick_thrown_trace host w :
  zone_accepted host (this w) = false ->
  trace (browser (snd (_onTick host w))) = trace (browser w).
Proof.
  unfold zone_accepted. intros A.
  run_onTick host w; try discriminate; reflexivity.
Qed.

(** [stop] does not touch the pending timeouts. *)
Lemma stop_timers w :
  timers (browser (snd (stop w))) = timers (browser w).
Proof.
  unfold stop, bind, get_this. simpl.
  destruct (animationFrameId (this w)) as [id|]; [|reflexivity].
  destruct (id =? 0); reflexivity.
Qed.

Lemma stop_not_running w :
  animationFrameId (this w) = None -> stop w = (Returns tt, w).
Proof.
  intros H. unfold stop, bind, get_this. simpl. rewrite H. reflexivity.
Qed.

Lemma stop_idempotent w : snd (stop (snd (stop w))) = snd (stop w).
Proof.
  destruct (animationFrameId (this w)) as [id|] eqn:A.
  - destruct (id =? 0) eqn:Z0.
    + assert (E : stop w = (Returns tt, w))
        by (unfold stop, bind, get_this; simpl; rewrite A, Z0; reflexivity).
      rewrite E. simpl. rewrite E. reflexivity.
    + assert (E : animationFrameId (this (snd (stop w))) = None)
        by (unfold stop, bind, get_this; simpl; rewrite A, Z0; reflexivity).
      rewrite (stop_not_running _ E). reflexivity.
  - rewrite (stop_not_running _ A). simpl.
    rewrite (stop_not_running _ A). reflexivity.
Qed.

Lemma fire_run host h w :
  existsb (fun t => handle t =? h) (timers (browser w)) = true ->
  fire host h w =
  Some (snd (timeout_closure host
     (mkWorld (this w)
        (mkBrowser (clock_reads (browser w))
           (filter (fun t => negb (handle t =? h)) (timers (browser w)))
           (next_handle (browser w)) (frame_requests (browser w))
           (trace (browser w)))))).
Proof. intros H. unfold fire. rewrite H. reflexivity. Qed.

(** The closure of a timeout arms the next one after a tick that returns,
    and ends with the tick when the tick throws. *)
Lemma timeout_closure_run host w :
  snd (timeout_closure host w) =
  if zone_accepted host (this w)
  then snd (_scheduleNextTick host (snd (_onTick host w)))
  else snd (_onTick host w).
Proof.
  unfold timeout_closure, bind.
  pose proof (_onTick_completion host w) as C.
  destruct (_onTick host w) as [c w']. simpl in C. subst c.
  destruct (zone_accepted host (this w)); reflexivity.
Qed.

Lemma _scheduleNextTick_calls host w :
  calls (snd (_scheduleNextTick host w)) = calls w.
Proof. reflexivity. Qed.

End TimeFacts.

(* ===================================================================== *)
(** * The alarm trigger: properties *)
(* ===================================================================== *)

Section AlarmClaims.

Import RegExp RegExpFacts AlarmModel AlarmSpec AlarmFacts Scenario.



(** C4. The pattern accepts exactly the strings "HH:MM" with an hour from
    00 to 23 and a minute from 00 to 59. For such a string [setAlarm]
    returns normally and [getAlarm().time] is that string; for any other
    string, "24:00", "9:30" and "12:60" among them, it throws the format
    error and the whole state (alarm, playing flag, store, events) is the
    one before the call. *)
Theorem setAlarm_accepts_exactly_HHMM :
  (forall t, _isValidTimeFormat t = true <-> valid_time t)
  /\ (forall t e n1 n2 st,
        valid_time t ->
        exists st', setAlarm t e n1 n2 st = (Normal, st') /\
                    option_map time (getAlarm st') = Some t)
  /\ (forall t e n1 n2 st,
        ~ valid_time t ->
        setAlarm t e n1 n2 st = (Throw "Invalid time format. Expected HH:MM", st))
  /\ (~ valid_time "24:00" /\ ~ valid_time "9:30" /\ ~ valid_time "12:60").
Proof.
  split; [exact _isValidTimeFormat_iff|]. split; [|split].
  - intros t e n1 n2 st V. apply _isValidTimeFormat_iff in V.
    eexists. split; [apply setAlarm_valid, V|].
    unfold getAlarm. rewrite activeAlarm_dispatch, activeAlarm_save. reflexivity.
  - intros t e n1 n2 st V. apply setAlarm_invalid.
    destruct (_isValidTimeFormat t) eqn:E; [|reflexivity].
    exfalso. apply V, _isValidTimeFormat_iff, E.
  - repeat split; apply not_valid_time; reflexivity.
Qed.

(** C4 on "07:30", set over an existing alarm. *)
Lemma setAlarm_accepts_exactly_HHMM_witness :
  valid_time "07:30"
  /\ exists st',
       setAlarm "07:30" (Js.Bool true) 5 6 alarm_1300 = (Normal, st') /\
       option_map time (getAlarm st') = Some "07:30".
Proof.
  assert (V : valid_time "07:30").
  { exists 7, 30. split; [lia|]. split; [lia | reflexivity]. }
  split; [exact V|].
  exact (proj1 (proj2 setAlarm_accepts_exactly_HHMM)
           "07:30" (Js.Bool true) 5 6 alarm_1300 V).
Defined.



End AlarmClaims.

(* ===================================================================== *)
(** * The clock engine: properties *)
(* ===================================================================== *)

Section TimeClaims.

Import TimeModel TimeSpec TimeFacts Scenario.

(** C1. What [getTime] stores in the raw fields: [rawMinutes] and
    [rawSeconds] are the minute and second of the date; [rawHours] is the
    hour of the date in 24-hour mode only, and the hour after the 12-hour
    conversion otherwise, whenever the zone is one [getTime] returns for.
    At 13:00:00 a new model (12-hour mode) returns
    [rawHours = 1], and [rawHours = 13] after [setFormat('24h')]; an alarm
    set for "13:00" then triggers in 24-hour mode and not in 12-hour
    mode. *)
Theorem getTime_rawHours_follows_display_format :
  (forall host w,
     zone_accepted host (this w) = true ->
     exists tv,
       fst (getTime host w) = Returns tv /\
       rawMinutes tv = getMinutes (raw tv) /\
       rawSeconds tv = getSeconds (raw tv) /\
       rawHours tv = if format24 (this w) then getHours (raw tv)
                     else to12 (getHours (raw tv)))
  /\ (let w12 := new_TimeModel afternoon_host in
      let w24 := snd (setFormat (Js.Str "24h") w12) in
      exists tv12 tv24,
        fst (getTime afternoon_host w12) = Returns tv12 /\
        fst (getTime afternoon_host w24) = Returns tv24 /\
        getHours (raw tv12) = 13 /\ getHours (raw tv24) = 13 /\
        rawHours tv12 = 1 /\ rawHours tv24 = 13 /\
        AlarmModel.shouldTrigger tv12 alarm_1300 = Some false /\
        AlarmModel.shouldTrigger tv24 alarm_1300 = Some true).
Proof.
  split.
  - intros host w A. rewrite (getTime_returns host w A). cbn [fst].
    eexists. split; [reflexivity|]. rewrite timeValue_raw.
    repeat split. apply timeValue_rawHours.
  - eexists _, _. split; [reflexivity|]. split; [reflexivity|].
    vm_compute. repeat split.
Qed.

(** C9. In 12-hour mode the hour 0 is shown as "12" with period AM, the
    hour 12 as "12" with PM and the hour 13 as "01" with PM; for every hour
    of the day the shown hour is the padded value of [hours % 12 || 12],
    between 1 and 12, never "00" or "0". In 24-hour mode the hour is shown
    as it is and the period stays at its initial "AM" whatever the hour:
    none is derived. This holds of the value [getTime] returns, and it
    returns one for 'local' and for every zone the formatter accepts. *)
Theorem getTime_hours_display :
  forall host w,
    zone_accepted host (this w) = true ->
    exists tv,
    fst (getTime host w) = Returns tv /\
    let h := getHours (raw tv) in
    (format24 (this w) = false ->
       (h = 0 -> hours tv = "12" /\ period tv = "AM") /\
       (h = 12 -> hours tv = "12" /\ period tv = "PM") /\
       (h = 13 -> hours tv = "01" /\ period tv = "PM") /\
       (0 <= h < 24 ->
          hours tv = _padZero (to12 h) /\ 1 <= to12 h <= 12 /\
          hours tv <> "00" /\ hours tv <> "0" /\
          period tv = if h <? 12 then "AM" else "PM"))
    /\ (format24 (this w) = true ->
          hours tv = _padZero h /\ rawHours tv = h /\ period tv = "AM").
Proof.
  intros host w A. rewrite (getTime_returns host w A). cbn [fst].
  eexists. split; [reflexivity|]. cbv zeta.
  rewrite timeValue_raw.
  set (date := date_read host w).
  split; intros F; rewrite F.
  - unfold timeValue. simpl.
    split; [|split; [|split]].
    + intros ->. split; reflexivity.
    + intros ->. split; reflexivity.
    + intros ->. split; reflexivity.
    + intros H. split; [reflexivity|]. split; [apply to12_range, H|].
      assert (N : negb ((_padZero (to12 (getHours date)) =? "00")%string
                        || (_padZero (to12 (getHours date)) =? "0")%string) = true).
      { apply (forall_below
                 (fun h => negb ((_padZero (to12 h) =? "00")%string
                                 || (_padZero (to12 h) =? "0")%string)) 24);
          [vm_compute; reflexivity | exact H]. }
      apply negb_true_iff, orb_false_iff in N as [N1 N2].
      apply String.eqb_neq in N1, N2.
      split; [exact N1|]. split; [exact N2|].
      destruct (getHours date >=? 12) eqn:G, (getHours date <? 12) eqn:L;
        try reflexivity; lia.
  - unfold timeValue. simpl. auto.
Qed.

(** C9 at 13:00:00 in a new model, which is in 12-hour mode. *)
Lemma getTime_hours_display_witness :
  zone_accepted afternoon_host (this (new_TimeModel afternoon_host)) = true
  /\ format24 (this (new_TimeModel afternoon_host)) = false
  /\ exists tv,
       fst (getTime afternoon_host (new_TimeModel afternoon_host)) = Returns tv /\
       getHours (raw tv) = 13 /\ hours tv = "01" /\ period tv = "PM".
Proof.
  split; [reflexivity|]. split; [reflexivity|].
  destruct (getTime_hours_display afternoon_host (new_TimeModel afternoon_host)
              eq_refl) as (tv & R & H12 & _).
  exists tv. split; [exact R|].
  assert (E : getHours (raw tv) = 13).
  { rewrite (getTime_returns afternoon_host (new_TimeModel afternoon_host) eq_refl) in R.
    injection R as <-. reflexivity. }
  split; [exact E|].
  exact (proj1 (proj2 (proj2 (H12 eq_refl))) E).
Defined.

(** C5. For a date within the calendar ranges the minute and second angles
    lie in [[0, 360)], the second angle is 0 at second 0 and 180 at second
    30, and the hour angle lies in [[0, 360)] exactly when [rawHours] is
    below 12, whenever the zone is one [getTime] returns for. At 12:30:00
    in 12-hour mode the hour angle is 375, and at 13:00:00 in 24-hour mode
    it is 390. *)
Theorem getHandAngles_hour_leaves_circle :
  (forall host w,
     zone_accepted host (this w) = true ->
     exists tv a,
       fst (getTime host w) = Returns tv /\
       fst (getHandAngles host w) = Returns a /\
       (calendar_date (raw tv) ->
        in_circle (minute a) = true /\
        in_circle (second a) = true /\
        (rawSeconds tv = 0 -> second a = 0%float) /\
        (rawSeconds tv = 30 -> second a = 180%float) /\
        in_circle (hour a) = (rawHours tv <? 12)))
  /\ (let w := new_TimeModel noon_host in
      exists a,
        fst (getHandAngles noon_host w) = Returns a /\
        hour a = 375%float /\ in_circle (hour a) = false)
  /\ (let w := snd (setFormat (Js.Str "24h") (new_TimeModel afternoon_host)) in
      exists a,
        fst (getHandAngles afternoon_host w) = Returns a /\
        hour a = 390%float /\ in_circle (hour a) = false).
Proof.
  split; [|split].
  - intros host w A. rewrite getHandAngles_run, getTime_run, A. cbn [fst].
    eexists _, _. split; [reflexivity|]. split; [reflexivity|].
    rewrite handAngles_eq. cbn [hour minute second].
    rewrite timeValue_raw, timeValue_rawMinutes, timeValue_rawSeconds,
      timeValue_rawHours.
    set (date := date_read host w).
    intros (_ & _ & _ & Hh & Hm & Hs).
    split; [apply minute_in_circle; assumption|].
    split; [apply second_in_circle; assumption|].
    split; [intros ->; reflexivity|].
    split; [intros ->; reflexivity|].
    apply hour_in_circle; [|assumption].
    destruct (format24 (this w)); [exact Hh|].
    pose proof (to12_range _ Hh). lia.
  - eexists. split; [reflexivity|]. vm_compute. auto.
  - eexists. split; [reflexivity|]. vm_compute. auto.
Qed.

(** C5 on the date of [noon_host], 12:30:00. *)
Lemma getHandAngles_hour_leaves_circle_witness :
  zone_accepted noon_host (this (new_TimeModel noon_host)) = true
  /\ exists tv a,
       fst (getTime noon_host (new_TimeModel noon_host)) = Returns tv /\
       fst (getHandAngles noon_host (new_TimeModel noon_host)) = Returns a /\
       calendar_date (raw tv) /\
       in_circle (minute a) = true /\ in_circle (second a) = true.
Proof.
  split; [reflexivity|].
  destruct (proj1 getHandAngles_hour_leaves_circle noon_host
              (new_TimeModel noon_host) eq_refl) as (tv & a & Rt & Ra & H).
  exists tv, a. split; [exact Rt|]. split; [exact Ra|].
  assert (C : calendar_date (raw tv)).
  { rewrite (getTime_returns noon_host (new_TimeModel noon_host) eq_refl) in Rt.
    injection Rt as <-. vm_compute. repeat split; discriminate. }
  split; [exact C|].
  destruct (H C) as (M & S & _). split; [exact M | exact S].
Defined.

(** C2. [stop] never fails, does nothing when no handle is recorded, and
    doing it twice is doing it once; but it takes no timeout away. In a new
    model [start] arms a timeout and records no handle (it returns
    [undefined]), so the [stop] that follows changes nothing: the timeout
    stays pending, and when the browser runs it the callback is called and
    the next timeout is armed. *)
Theorem stop_leaves_timeout_pending :
  forall host cb,
    let w0 := new_TimeModel host in
    let w1 := snd (start host cb w0) in
    let w2 := snd (stop w1) in
    fst (start host cb w0) = Returns None /\
    w2 = w1 /\
    calls w2 = 0%nat /\
    (exists w3, fire host 1 w2 = Some w3 /\ calls w3 = 1%nat /\
                timers (browser w3) <> [])
    /\ (forall w, timers (browser (snd (stop w))) = timers (browser w))
    /\ (forall w, snd (stop (snd (stop w))) = snd (stop w))
    /\ (forall w, animationFrameId (this w) = None -> stop w = (Returns tt, w)).
Proof.
  intros host cb w0 w1 w2.
  split; [reflexivity|]. split; [reflexivity|]. split; [reflexivity|].
  split; [|split; [exact stop_timers
                  | split; [exact stop_idempotent | exact stop_not_running]]].
  eexists. split; [apply fire_run; reflexivity|].
  rewrite timeout_closure_run.
  match goal with |- context [zone_accepted host ?f] =>
    change (zone_accepted host f) with true end.
  cbn iota. split.
  - rewrite _scheduleNextTick_calls.
    erewrite _onTick_calls; reflexivity.
  - rewrite _scheduleNextTick_run. simpl.
    intros E. apply app_eq_nil in E as [_ E]. discriminate.
Qed.

(** C6. A tick that reads the clock more than 60000 ms after the last
    sync adds [60000 - (t - lastSyncTime)] to [driftCorrection], where [t]
    is the clock read by [_correctDrift], and makes [t] the new
    [lastSyncTime]; any other tick leaves the fields alone. A tick that is
    5000 ms late 60 seconds after the sync lowers [driftCorrection] by
    5000 and moves the sync to the observed time; the fields are written
    before the tick calls [getTime], whether that returns or throws.
    [getTime], when it returns, reads the date at the clock plus
    [driftCorrection]. *)
Theorem _onTick_drift_correction :
  forall host w,
    let k := clock_reads (browser w) in
    let observed := Date_now host k in
    let t := Date_now host (S k) in
    let old := this w in
    let new := this (snd (_onTick host w)) in
    (observed - lastSyncTime old > 60000 ->
       driftCorrection new =
         driftCorrection old + (60000 - (t - lastSyncTime old)) /\
       lastSyncTime new = t)
    /\ (observed - lastSyncTime old <= 60000 -> new = old)
    /\ (forall sync, lastSyncTime old = sync ->
          observed = sync + 65000 -> t = sync + 65000 ->
          driftCorrection new = driftCorrection old - 5000 /\
          lastSyncTime new = sync + 65000)
    /\ (forall w',
          zone_accepted host (this w') = true ->
          exists tv,
            fst (getTime host w') = Returns tv /\
            raw tv =
              let instant := Date_now host (clock_reads (browser w'))
                             + driftCorrection (this w') in
              if (timezone (this w') =? "local")%string
              then local_date host instant
              else zone_date host (timezone (this w')) instant).
Proof.
  intros host w k observed t old new.
  assert (D : observed - lastSyncTime old > 60000 ->
              driftCorrection new =
                driftCorrection old + (60000 - (t - lastSyncTime old)) /\
              lastSyncTime new = t).
  { intros H. subst new. rewrite _onTick_fields. unfold drifted.
    fold k observed old.
    replace (observed - lastSyncTime old >? 60000) with true
      by (symmetry; apply Z.gtb_lt; lia).
    rewrite _correctDrift_run.
    cbn [snd this driftCorrection lastSyncTime clock_read browser clock_reads].
    fold k t old. split; [lia | reflexivity]. }
  split; [exact D|]. split; [|split].
  - intros H. subst new. rewrite _onTick_fields. unfold drifted.
    fold k observed old.
    replace (observed - lastSyncTime old >? 60000) with false; [reflexivity|].
    symmetry. rewrite Z.gtb_ltb. apply Z.ltb_ge. lia.
  - intros sync S O T. destruct D as [D1 D2]; [lia|].
    rewrite D1, D2. lia.
  - intros w' A. rewrite (getTime_returns host w' A). cbn [fst].
    eexists. split; reflexivity.
Qed.

(** C6 on the late tick of [late_host]. *)
Lemma _onTick_drift_correction_witness :
  lastSyncTime (this (new_TimeModel late_host)) = 1704110400000
  /\ driftCorrection (this (snd (_onTick late_host (new_TimeModel late_host))))
     = 0 - 5000
  /\ lastSyncTime (this (snd (_onTick late_host (new_TimeModel late_host))))
     = 1704110400000 + 65000.
Proof.
  split; [reflexivity|].
  exact (proj1 (proj2 (proj2
           (_onTick_drift_correction late_host (new_TimeModel late_host))))
           1704110400000 eq_refl eq_refl eq_refl).
Defined.



(** C10. After [setFormat(format)] the model is in 24-hour mode exactly
    when [format] is the string "24h"; the boolean [true], "24H", "24",
    "12h", the number 24, [undefined] and [null] all select the 12-hour
    mode. In every case one [formatChanged] event is dispatched with the
    argument as it was given, and nothing else changes. *)
Theorem setFormat_selects_24h_only_for_24h_string :
  forall (format : Js.Value) w,
    let w' := snd (setFormat format w) in
    (format24 (this w') = true <-> format = Js.Str "24h")
    /\ trace (browser w') =
         (trace (browser w) ++ [Dispatched (formatChanged format)])%list
    /\ timezone (this w') = timezone (this w)
    /\ (forall v, In v [Js.Bool true; Js.Str "24H"; Js.Str "24"; Js.Str "12h";
                        Js.Number 24%float; Js.Undefined; Js.Null] ->
          format24 (this (snd (setFormat v w))) = false).
Proof.
  intros format w w'. split; [|split; [reflexivity | split; [reflexivity|]]].
  - subst w'. unfold setFormat, bind, get_this. simpl.
    destruct format as [| |b|x|s]; simpl; try (split; [discriminate | discriminate]).
    split.
    + intros H. apply String.eqb_eq in H. congruence.
    + intros H. injection H as ->. reflexivity.
  - intros v H. simpl in H.
    repeat (destruct H as [<-|H]; [reflexivity|]). contradiction.
Qed.

End TimeClaims.

(* ===================================================================== *)
(** * Further properties of the three models *)
(* ===================================================================== *)

Module AlarmExtraFacts.
Import AlarmModel AlarmSpec AlarmFacts AlarmExtra.

Lemma json_roundtrip_idempotent v :
  Js.json_roundtrip (Js.json_roundtrip v) = Js.json_roundtrip v.
Proof.
  destruct v as [| |b|x|s]; try reflexivity. simpl.
  destruct (PrimFloat.is_nan x || PrimFloat.is_infinity x) eqn:N; [reflexivity|].
  destruct (PrimFloat.is_zero x) eqn:Z0.
  - reflexivity.
  - simpl. rewrite N, Z0. reflexivity.
Qed.

Lemma stored_idempotent a : stored (stored a) = stored a.
Proof. unfold stored. simpl. rewrite json_roundtrip_idempotent. reflexivity. Qed.

Lemma storage_save st :
  available (storage st) = true ->
  storage (_saveToStorage st) = mkStorage true (option_map stored (activeAlarm st)).
Proof. intros H. unfold _saveToStorage. rewrite H. reflexivity. Qed.

Lemma available_save st : available (storage (_saveToStorage st)) = available (storage st).
Proof. unfold _saveToStorage. destruct (available (storage st)) eqn:E; [reflexivity | exact E]. Qed.

Lemma available_step op st : available (storage (step op st)) = available (storage st).
Proof.
  destruct op as [t e n1 n2| |e|p]; unfold step.
  - unfold setAlarm. destruct (_isValidTimeFormat t); simpl; [|reflexivity].
    rewrite available_save. reflexivity.
  - unfold clearAlarm. simpl. rewrite available_save. reflexivity.
  - unfold toggleAlarm. destruct (activeAlarm st); [|reflexivity].
    simpl. rewrite available_save. reflexivity.
  - reflexivity.
Qed.

Lemma in_sync_save st : in_sync (_saveToStorage st).
Proof.
  unfold in_sync. rewrite available_save. intros H.
  rewrite storage_save by exact H. simpl.
  rewrite activeAlarm_save. reflexivity.
Qed.

Lemma in_sync_dispatch e st : in_sync st -> in_sync (dispatchEvent e st).
Proof. unfold in_sync. simpl. auto. Qed.

Lemma step_in_sync op st : in_sync st -> in_sync (step op st).
Proof.
  intros H. destruct op as [t e n1 n2| |e|p]; unfold step.
  - unfold setAlarm. destruct (_isValidTimeFormat t); simpl; [|exact H].
    apply in_sync_dispatch, in_sync_save.
  - apply in_sync_dispatch, in_sync_save.
  - unfold toggleAlarm. destruct (activeAlarm st) eqn:A; [|exact H].
    apply in_sync_dispatch, in_sync_save.
  - exact H.
Qed.

Lemma run_in_sync ops : forall st, in_sync st -> in_sync (run ops st).
Proof.
  induction ops as [|op ops IH]; intros st H; simpl; [exact H|].
  apply IH, step_in_sync, H.
Qed.

Lemma available_run ops : forall st, available (storage (run ops st)) = available (storage st).
Proof.
  induction ops as [|op ops IH]; intros st; simpl; [reflexivity|].
  rewrite IH. apply available_step.
Qed.

Lemma constructor_in_sync sto : storage_normal sto -> in_sync (constructor sto).
Proof.
  unfold storage_normal, in_sync, constructor, _loadFromStorage. simpl.
  intros N. destruct (available sto) eqn:Av.
  - destruct (alarms_item sto) as [a|] eqn:A; simpl; intros _.
    + rewrite A, N. reflexivity.
    + exact A.
  - simpl. rewrite Av. discriminate.
Qed.

Lemma constructor_loads sto :
  available sto = true -> activeAlarm (constructor sto) = alarms_item sto.
Proof.
  intros H. unfold constructor, _loadFromStorage. simpl. rewrite H.
  destruct (alarms_item sto); reflexivity.
Qed.
End AlarmExtraFacts.

Section AlarmExtras.
Import AlarmModel AlarmSpec AlarmFacts AlarmExtra AlarmExtraFacts Scenario.

(** X1. A store that works and holds no alarm, or one as [JSON.parse] returns
    it, is kept in step with the model: after any sequence of calls a new
    model built on the store holds the alarm of the old one as [JSON]
    writes it. With a boolean [enabled] that is the same alarm; and unless
    [enabled] is a number, [shouldTrigger] answers alike before and after
    the reload. *)
Theorem alarm_survives_reload :
  forall sto ops,
    available sto = true ->
    storage_normal sto ->
    let st := run ops (constructor sto) in
    activeAlarm (constructor (storage st)) = option_map stored (activeAlarm st)
    /\ (forall a b, activeAlarm st = Some a -> enabled a = Js.Bool b ->
          activeAlarm (constructor (storage st)) = Some a)
    /\ ((forall a x, activeAlarm st = Some a -> enabled a <> Js.Number x) ->
        forall tv, shouldTrigger tv (constructor (storage st)) = shouldTrigger tv st).
Proof.
  intros sto ops Av N st.
  assert (Av' : available (storage st) = true)
    by (subst st; rewrite available_run; unfold constructor, _loadFromStorage; simpl;
        rewrite Av; destruct (alarms_item sto); exact Av).
  assert (S : in_sync st) by (apply run_in_sync, constructor_in_sync, N).
  assert (R : activeAlarm (constructor (storage st)) = option_map stored (activeAlarm st))
    by (rewrite constructor_loads by exact Av'; apply S, Av').
  split; [exact R|]. split.
  - intros a b A E. rewrite R, A. simpl. unfold stored. rewrite E. simpl.
    rewrite <- E. destruct a; reflexivity.
  - intros NoNum tv. unfold shouldTrigger. rewrite R.
    destruct (activeAlarm st) as [a|] eqn:A; [|reflexivity].
    simpl. destruct (enabled a) as [| |b|x|s] eqn:E; try reflexivity.
    exfalso. exact (NoNum a x eq_refl E).
Qed.

Lemma alarm_survives_reload_witness :
  (available (mkStorage true None) = true /\ storage_normal (mkStorage true None))
  /\ activeAlarm (constructor (storage (run session (constructor (mkStorage true None)))))
     = Some (mkAlarm 2 "07:30" (Js.Bool false) 2).
Proof.
  split; [split; [reflexivity | exact I]|].
  exact (proj1 (alarm_survives_reload (mkStorage true None) session eq_refl I)).
Defined.
End AlarmExtras.

Module AlarmExtraFacts2.
Import AlarmModel AlarmSpec AlarmFacts AlarmExtra AlarmExtraFacts.

Lemma memory_save st : memory (_saveToStorage st) = memory st.
Proof. unfold _saveToStorage. destruct (available (storage st)); reflexivity. Qed.

Lemma memory_eq st1 st2 :
  memory st1 = memory st2 ->
  alarms st1 = alarms st2 /\ activeAlarm st1 = activeAlarm st2 /\
  isPlaying st1 = isPlaying st2 /\ dispatched st1 = dispatched st2.
Proof. unfold memory. intros H. injection H as -> -> -> ->. auto. Qed.

Lemma storage_save_unavailable st :
  available (storage st) = false -> _saveToStorage st = st.
Proof. intros H. unfold _saveToStorage. rewrite H. reflexivity. Qed.

Lemma dispatched_save st : dispatched (_saveToStorage st) = dispatched st.
Proof. unfold _saveToStorage. destruct (available (storage st)); reflexivity. Qed.

Lemma isPlaying_save st : isPlaying (_saveToStorage st) = isPlaying st.
Proof. unfold _saveToStorage. destruct (available (storage st)); reflexivity. Qed.

Lemma alarms_save st : alarms (_saveToStorage st) = alarms st.
Proof. unfold _saveToStorage. destruct (available (storage st)); reflexivity. Qed.

Lemma step_ignored op st : ignored op st = true -> step op st = st.
Proof.
  destruct op as [t e n1 n2| |e|p]; simpl; try discriminate.
  - intros H. apply negb_true_iff in H. rewrite setAlarm_invalid by exact H. reflexivity.
  - unfold toggleAlarm. destruct (activeAlarm st); [discriminate | reflexivity].
Qed.

Lemma step_effective op st :
  ignored op st = false -> exists e, dispatched (step op st) = (dispatched st ++ [e])%list.
Proof.
  destruct op as [t e n1 n2| |e|p]; simpl; intros H.
  - apply negb_false_iff in H. rewrite setAlarm_valid by exact H. simpl.
    rewrite dispatched_save. eauto.
  - unfold clearAlarm. simpl. rewrite dispatched_save. eauto.
  - unfold toggleAlarm. destruct (activeAlarm st); [|discriminate].
    simpl. rewrite dispatched_save. eauto.
  - eauto.
Qed.
End AlarmExtraFacts2.

Section AlarmExtras2.
Import AlarmModel AlarmSpec AlarmFacts AlarmExtra AlarmExtraFacts AlarmExtraFacts2 Scenario.

(** X2. What the model holds in memory after a call depends on what it held
    before, never on the store; a store that throws is left as it was; and
    a model built on such a store starts without alarm, whatever the store
    holds. *)
Theorem alarm_memory_independent_of_storage :
  (forall op st1 st2,
     memory st1 = memory st2 -> memory (step op st1) = memory (step op st2))
  /\ (forall op st,
        available (storage st) = false -> storage (step op st) = storage st)
  /\ (forall item, activeAlarm (constructor (mkStorage false item)) = None).
Proof.
  split; [|split].
  - intros op st1 st2 H. apply memory_eq in H as (H1 & H2 & H3 & H4).
    destruct op as [t e n1 n2| |e|p]; unfold step.
    + unfold setAlarm. destruct (_isValidTimeFormat t); simpl.
      * unfold memory. simpl.
        rewrite !alarms_save, !activeAlarm_save, !isPlaying_save, !dispatched_save.
        simpl. rewrite H1, H3, H4. reflexivity.
      * unfold memory. rewrite H1, H2, H3, H4. reflexivity.
    + unfold clearAlarm, memory. simpl.
      rewrite !alarms_save, !activeAlarm_save, !isPlaying_save, !dispatched_save.
      simpl. rewrite H1, H4. reflexivity.
    + unfold toggleAlarm, memory. rewrite H2.
      destruct (activeAlarm st2) eqn:A2.
      * simpl.
        rewrite !alarms_save, !activeAlarm_save, !isPlaying_save, !dispatched_save.
        simpl. rewrite H1, H3, H4. reflexivity.
      * rewrite H1, H3, H4. congruence.
    + unfold setPlaying, memory. simpl. rewrite H1, H2, H4. reflexivity.
  - intros op st H. destruct op as [t e n1 n2| |e|p]; unfold step.
    + unfold setAlarm. destruct (_isValidTimeFormat t); simpl; [|reflexivity].
      rewrite storage_save_unavailable by exact H. reflexivity.
    + unfold clearAlarm. simpl.
      rewrite storage_save_unavailable by exact H. reflexivity.
    + unfold toggleAlarm. destruct (activeAlarm st); [|reflexivity]. simpl.
      rewrite storage_save_unavailable by exact H. reflexivity.
    + reflexivity.
  - reflexivity.
Qed.

(** X3. After [clearAlarm] there is no alarm, nothing is playing,
    [shouldTrigger] is false for every time value and a working store has
    no alarm entry; one [alarmCleared] event is dispatched. A second
    [clearAlarm] changes nothing but dispatches the event again. *)
Theorem clearAlarm_resets :
  forall st,
    let st' := clearAlarm st in
    activeAlarm st' = None /\
    isPlaying st' = Js.Bool false /\
    (forall tv, shouldTrigger tv st' = Some false) /\
    (available (storage st) = true -> alarms_item (storage st') = None) /\
    dispatched st' = (dispatched st ++ [alarmCleared])%list /\
    clearAlarm st' = dispatchEvent alarmCleared st'.
Proof.
  intros st st'. subst st'. unfold clearAlarm. simpl.
  rewrite activeAlarm_save, isPlaying_save, dispatched_save. simpl.
  split; [reflexivity|]. split; [reflexivity|]. split.
  - intros tv. unfold shouldTrigger. simpl. rewrite activeAlarm_save. reflexivity.
  - split; [|split; [reflexivity|]].
    + intros H. rewrite storage_save by exact H. reflexivity.
    + rewrite alarms_save. simpl.
      unfold _saveToStorage at 1 3. simpl.
      destruct (available (storage st)) eqn:A; simpl.
      * unfold _saveToStorage. simpl. rewrite A. reflexivity.
      * unfold _saveToStorage. simpl. rewrite A. simpl. rewrite A. reflexivity.
Qed.
End AlarmExtras2.

Module AlarmExtraFacts3.
Import AlarmModel AlarmSpec AlarmFacts AlarmExtra AlarmExtraFacts AlarmExtraFacts2.

Lemma activeAlarm_toggle e st a :
  activeAlarm st = Some a ->
  activeAlarm (toggleAlarm e st) = Some (mkAlarm (id a) (time a) e (createdAt a)).
Proof.
  intros A. unfold toggleAlarm. rewrite A. simpl. rewrite activeAlarm_save. reflexivity.
Qed.

Lemma shouldTrigger_same_alarm tv st1 st2 :
  activeAlarm st1 = activeAlarm st2 -> shouldTrigger tv st1 = shouldTrigger tv st2.
Proof. intros H. unfold shouldTrigger. rewrite H. reflexivity. Qed.

Lemma filter_one (f : Z -> bool) (l : list Z) (x : Z) :
  NoDup l -> In x l -> (forall y, In y l -> f y = true <-> y = x) -> filter f l = [x].
Proof.
  induction l as [|y l IH]; intros ND I F; [contradiction|].
  inversion ND as [|? ? Ny NDl]; subst. simpl.
  destruct (f y) eqn:Fy.
  - assert (y = x) by (apply F; [left; reflexivity | exact Fy]). subst y.
    f_equal. clear IH.
    assert (E : forall z, In z l -> f z = false).
    { intros z Hz. destruct (f z) eqn:Fz; [|reflexivity].
      assert (z = x) by (apply F; [right; exact Hz | exact Fz]). subst. contradiction. }
    clear -E. induction l as [|z l IH]; [reflexivity|]. simpl.
    rewrite (E z) by (left; reflexivity). apply IH. intros; apply E; right; assumption.
  - destruct I as [->|I].
    + assert (f x = true) by (apply F; [left|]; reflexivity). congruence.
    + apply IH; [exact NDl | exact I|].
      intros z Hz. apply F. right. exact Hz.
Qed.

Lemma filter_none (f : Z -> bool) (l : list Z) :
  (forall y, In y l -> f y = false) -> filter f l = [].
Proof.
  induction l as [|y l IH]; intros F; [reflexivity|]. simpl.
  rewrite (F y) by (left; reflexivity). apply IH. intros; apply F; right; assumption.
Qed.

Lemma below_NoDup n : NoDup (below n).
Proof.
  unfold below. generalize (seq_NoDup n 0). generalize (seq 0 n).
  induction l as [|k l IH]; intros ND; simpl; [constructor|].
  inversion ND as [|? ? Nk NDl]; subst. constructor; [|apply IH, NDl].
  intros I. apply in_map_iff in I as (j & E & Hj).
  apply Nat2Z.inj in E. subst. contradiction.
Qed.

Lemma In_below n z : In z (below n) -> 0 <= z < Z.of_nat n.
Proof.
  unfold below. intros H. apply in_map_iff in H as (k & <- & Hk).
  apply in_seq in Hk. lia.
Qed.
End AlarmExtraFacts3.

Section AlarmExtras3.
Import AlarmModel AlarmSpec AlarmFacts AlarmExtra AlarmExtraFacts AlarmExtraFacts2
  AlarmExtraFacts3 Scenario.

(** X4. [toggleAlarm] without alarm returns the state as it was, without
    event. With an alarm it replaces [enabled] and keeps [id], [time] and
    [createdAt] and the playing flag; the last of two toggles decides; a
    falsy argument silences [shouldTrigger] for every time value, and a
    truthy one on an enabled alarm leaves its answers as they were. *)
Theorem toggleAlarm_changes_enabled_only :
  (forall e st, activeAlarm st = None -> toggleAlarm e st = st)
  /\ (forall e st a,
        activeAlarm st = Some a ->
        let st' := toggleAlarm e st in
        activeAlarm st' = Some (mkAlarm (id a) (time a) e (createdAt a)) /\
        isPlaying st' = isPlaying st /\
        dispatched st' = (dispatched st ++ [alarmToggled e])%list /\
        (forall e2, activeAlarm (toggleAlarm e2 st') = activeAlarm (toggleAlarm e2 st)) /\
        (forall tv, Js.truthy e = false -> shouldTrigger tv st' = Some false) /\
        (forall tv, Js.truthy e = true -> Js.truthy (enabled a) = true ->
                    shouldTrigger tv st' = shouldTrigger tv st)).
Proof.
  split.
  - intros e st A. unfold toggleAlarm. rewrite A. reflexivity.
  - intros e st a A st'. subst st'.
    assert (T := activeAlarm_toggle e st a A).
    split; [exact T|]. split; [|split; [|split; [|split]]].
    + unfold toggleAlarm. rewrite A. simpl. rewrite isPlaying_save. reflexivity.
    + unfold toggleAlarm. rewrite A. simpl. rewrite dispatched_save. reflexivity.
    + intros e2. rewrite (activeAlarm_toggle e2 _ _ T), (activeAlarm_toggle e2 _ _ A).
      reflexivity.
    + intros tv E. apply shouldTrigger_off. right. eexists. split; [exact T | exact E].
    + intros tv E Ea. unfold shouldTrigger. rewrite T, A. simpl. rewrite E, Ea.
      reflexivity.
Qed.

(** X5. A rejected [setAlarm] and a [toggleAlarm] without alarm leave the
    whole state as it was; every other call appends exactly one event. The
    events dispatched so far are never removed or reordered, and a
    sequence of calls adds at most one event per call. *)
Theorem alarm_events_only_grow :
  (forall op st, ignored op st = true -> step op st = st)
  /\ (forall op st, ignored op st = false ->
        exists e, dispatched (step op st) = (dispatched st ++ [e])%list)
  /\ (forall ops st,
        exists later,
          dispatched (run ops st) = (dispatched st ++ later)%list /\
          (List.length later <= List.length ops)%nat).
Proof.
  split; [exact step_ignored|]. split; [exact step_effective|].
  induction ops as [|op ops IH]; intros st; simpl.
  - exists []. rewrite app_nil_r. split; [reflexivity | simpl; lia].
  - destruct (IH (step op st)) as (later & E & L). rewrite E.
    destruct (ignored op st) eqn:G.
    + rewrite step_ignored by exact G. exists later. split; [reflexivity | lia].
    + destruct (step_effective op st G) as (e & ->).
      exists (e :: later). rewrite <- app_assoc. split; [reflexivity | simpl; lia].
Qed.

(** X6. Only [clearAlarm] and [setPlaying] change the playing flag: setting
    or toggling an alarm keeps it. [setPlaying] stores its argument,
    dispatches one event and touches neither the alarm nor the store. The
    [alarms] list is never written. *)
Theorem alarm_playing_flag_frame :
  (forall op st,
     isPlaying (step op st) <> isPlaying st ->
     op = OpClearAlarm \/ exists p, op = OpSetPlaying p)
  /\ (forall p st,
        let st' := setPlaying p st in
        isPlaying st' = p /\ activeAlarm st' = activeAlarm st /\
        storage st' = storage st /\
        dispatched st' = (dispatched st ++ [alarmPlayingChanged p])%list)
  /\ (forall ops st, alarms (run ops st) = alarms st).
Proof.
  split; [|split].
  - intros op st H. destruct op as [t e n1 n2| |e|p]; eauto; exfalso; apply H;
      unfold step.
    + unfold setAlarm. destruct (_isValidTimeFormat t); simpl; [|reflexivity].
      rewrite isPlaying_save. reflexivity.
    + unfold toggleAlarm. destruct (activeAlarm st); [|reflexivity].
      simpl. rewrite isPlaying_save. reflexivity.
  - intros p st st'. repeat split.
  - induction ops as [|op ops IH]; intros st; simpl; [reflexivity|].
    rewrite IH. destruct op as [t e n1 n2| |e|p]; unfold step.
    + unfold setAlarm. destruct (_isValidTimeFormat t); simpl; [|reflexivity].
      rewrite alarms_save. reflexivity.
    + unfold clearAlarm. simpl. rewrite alarms_save. reflexivity.
    + unfold toggleAlarm. destruct (activeAlarm st); [|reflexivity].
      simpl. rewrite alarms_save. reflexivity.
    + reflexivity.
Qed.

(** X7. With an enabled alarm at [h:m], among the sixty time values of a
    minute the alarm triggers at second 0 only when the minute is [h:m],
    and at no second of any other minute. *)
Theorem alarm_triggers_once_per_minute :
  forall st a h m (tvs : Z -> TimeValue) h' m',
    activeAlarm st = Some a ->
    Js.truthy (enabled a) = true ->
    0 <= h < 24 -> 0 <= m < 60 -> time a = HHMM h m ->
    (forall s, at_time (tvs s) h' m' s) ->
    triggering_seconds tvs st =
      if (h' =? h) && (m' =? m) then [0] else [].
Proof.
  intros st a h m tvs h' m' A E Hh Hm Ht Tv. unfold triggering_seconds.
  assert (F : forall s, shouldTrigger (tvs s) st =
                        Some ((h' =? h) && (m' =? m) && (s =? 0))).
  { intros s. rewrite (shouldTrigger_enabled (tvs s) st a h m A E Hh Hm Ht).
    destruct (Tv s) as (-> & -> & ->). reflexivity. }
  destruct ((h' =? h) && (m' =? m)) eqn:B.
  - apply filter_one; [apply below_NoDup | apply below_In; lia |].
    intros s Hs. rewrite F. simpl.
    destruct (s =? 0) eqn:S0.
    + apply Z.eqb_eq in S0. split; auto.
    + apply Z.eqb_neq in S0. split; [discriminate | intros; contradiction].
  - apply filter_none. intros s Hs. rewrite F. reflexivity.
Qed.

Lemma alarm_triggers_once_per_minute_witness :
  triggering_seconds (tv_at 7 30) alarm_0730 = [0]
  /\ triggering_seconds (tv_at 7 31) alarm_0730 = [].
Proof.
  assert (A : activeAlarm alarm_0730 =
              Some (mkAlarm 1704094200000 "07:30" (Js.Bool true) 1704094200000))
    by reflexivity.
  split.
  - exact (alarm_triggers_once_per_minute alarm_0730 _ 7 30 (tv_at 7 30) 7 30
             A eq_refl ltac:(lia) ltac:(lia) eq_refl
             (fun s => conj eq_refl (conj eq_refl eq_refl))).
  - exact (alarm_triggers_once_per_minute alarm_0730 _ 7 30 (tv_at 7 31) 7 31
             A eq_refl ltac:(lia) ltac:(lia) eq_refl
             (fun s => conj eq_refl (conj eq_refl eq_refl))).
Defined.
End AlarmExtras3.

Module TimeExtraFacts.
Import TimeModel TimeSpec TimeFacts TimeExtra.

Lemma padded_field n :
  0 <= n < 60 ->
  String.length (_padZero n) = 2%nat /\ Js.Number_of_string (_padZero n) = Some n.
Proof.
  intros H.
  assert (P : padded_ok n = true)
    by (apply (forall_below padded_ok 60); [vm_compute; reflexivity | exact H]).
  unfold padded_ok in P. apply andb_true_iff in P as [L N].
  apply Nat.eqb_eq in L. split; [exact L|].
  destruct (Js.Number_of_string (_padZero n)) as [k|]; [|discriminate].
  apply Z.eqb_eq in N. subst. reflexivity.
Qed.

Lemma rawHours_range fmt date :
  0 <= getHours date < 24 -> 0 <= rawHours (timeValue fmt date) < 24.
Proof.
  intros H. rewrite timeValue_rawHours. destruct fmt; [exact H|].
  pose proof (to12_range _ H). lia.
Qed.

Lemma hours_string fmt date : hours (timeValue fmt date) = _padZero (rawHours (timeValue fmt date)).
Proof. reflexivity. Qed.

Lemma array_get_None {A} (l : list A) i :
  array_get l i = None <-> ~ (0 <= i < Z.of_nat (List.length l)).
Proof.
  unfold array_get. destruct (i <? 0) eqn:N.
  - apply Z.ltb_lt in N. split; [intros _; lia | reflexivity].
  - apply Z.ltb_ge in N. rewrite nth_error_None. lia.
Qed.

Lemma names_distinct (l : list string) (n : nat) i j :
  forallb (fun x => forallb (distinct_at l x) (below n)) (below n) = true ->
  0 <= i < Z.of_nat n -> 0 <= j < Z.of_nat n ->
  array_get l i = array_get l j -> i = j.
Proof.
  intros C Hi Hj E.
  pose proof (forall_below2 (distinct_at l) n n C i j Hi Hj) as D.
  unfold distinct_at in D. rewrite E in D.
  destruct (array_get l j) as [b|]; [|discriminate].
  rewrite String.eqb_refl in D. simpl in D. apply Z.eqb_eq, D.
Qed.
End TimeExtraFacts.

Section TimeExtras.
Import TimeModel TimeSpec TimeFacts TimeExtra TimeExtraFacts Scenario.

(** X8. In a zone [getTime] returns for, and for a date within the
    calendar ranges, in either display format, the strings [hours],
    [minutes] and [seconds] of [getTime] are two characters wide and
    [Number] reads each back as the raw field beside it. *)
Theorem getTime_strings_denote_raw_fields :
  forall host w,
    zone_accepted host (this w) = true ->
    exists tv,
    fst (getTime host w) = Returns tv /\
    (calendar_date (raw tv) ->
     (String.length (hours tv) = 2 /\ String.length (minutes tv) = 2 /\
      String.length (seconds tv) = 2)%nat /\
     Js.Number_of_string (hours tv) = Some (rawHours tv) /\
     Js.Number_of_string (minutes tv) = Some (rawMinutes tv) /\
     Js.Number_of_string (seconds tv) = Some (rawSeconds tv)).
Proof.
  intros host w A. rewrite (getTime_returns host w A). cbn [fst].
  eexists. split; [reflexivity|].
  rewrite timeValue_raw. set (date := date_read host w).
  intros (_ & _ & _ & Hh & Hm & Hs).
  pose proof (rawHours_range (format24 (this w)) date Hh) as Rh.
  rewrite hours_string.
  destruct (padded_field (rawHours (timeValue (format24 (this w)) date)))
    as [L1 N1]; [lia|].
  destruct (padded_field (getMinutes date)) as [L2 N2]; [lia|].
  destruct (padded_field (getSeconds date)) as [L3 N3]; [lia|].
  repeat split; assumption.
Qed.

Lemma getTime_strings_denote_raw_fields_witness :
  zone_accepted afternoon_host (this (new_TimeModel afternoon_host)) = true
  /\ exists tv,
       fst (getTime afternoon_host (new_TimeModel afternoon_host)) = Returns tv /\
       calendar_date (raw tv) /\
       Js.Number_of_string (hours tv) = Some (rawHours tv).
Proof.
  split; [reflexivity|].
  destruct (getTime_strings_denote_raw_fields afternoon_host
              (new_TimeModel afternoon_host) eq_refl) as (tv & R & H).
  exists tv. split; [exact R|].
  assert (C : calendar_date (raw tv)).
  { rewrite (getTime_returns afternoon_host (new_TimeModel afternoon_host) eq_refl) in R.
    injection R as <-. vm_compute. repeat split; discriminate. }
  split; [exact C|].
  exact (proj1 (proj2 (H C))).
Defined.

(** X9. In 12-hour mode, in a zone [getTime] returns for, the shown hour
    and the period determine the hour of the day: it is [rawHours % 12],
    plus 12 when the period is PM; the period is AM or PM. *)
Theorem twelve_hour_display_determines_hour :
  forall host w,
    zone_accepted host (this w) = true ->
    format24 (this w) = false ->
    exists tv,
    fst (getTime host w) = Returns tv /\
    (0 <= getHours (raw tv) < 24 ->
     getHours (raw tv) =
       Z.rem (rawHours tv) 12 + (if (period tv =? "PM")%string then 12 else 0)
     /\ (period tv = "AM" \/ period tv = "PM")).
Proof.
  intros host w A F. rewrite (getTime_returns host w A). cbn [fst].
  eexists. split; [reflexivity|]. intros H.
  rewrite timeValue_raw in *. set (date := date_read host w) in *.
  rewrite F. unfold timeValue. simpl.
  assert (P : (Z.rem (to12 (getHours date)) 12
               + (if ((if getHours date >=? 12 then "PM" else "AM") =? "PM")%string
                  then 12 else 0) =? getHours date) = true).
  { apply (forall_below
             (fun h => Z.rem (to12 h) 12
                       + (if ((if h >=? 12 then "PM" else "AM") =? "PM")%string
                          then 12 else 0) =? h) 24);
      [vm_compute; reflexivity | exact H]. }
  apply Z.eqb_eq in P. split; [symmetry; exact P|].
  destruct (getHours date >=? 12); auto.
Qed.

Lemma twelve_hour_display_determines_hour_witness :
  (zone_accepted afternoon_host (this (new_TimeModel afternoon_host)) = true
   /\ format24 (this (new_TimeModel afternoon_host)) = false)
  /\ exists tv,
       fst (getTime afternoon_host (new_TimeModel afternoon_host)) = Returns tv /\
       getHours (raw tv) = 13 /\
       getHours (raw tv) = Z.rem (rawHours tv) 12 + 12.
Proof.
  split; [split; reflexivity|].
  destruct (twelve_hour_display_determines_hour afternoon_host
              (new_TimeModel afternoon_host) eq_refl eq_refl) as (tv & R & H).
  exists tv. split; [exact R|].
  rewrite (getTime_returns afternoon_host (new_TimeModel afternoon_host) eq_refl) in R.
  injection R as <-.
  assert (B : 0 <= 13 < 24) by lia.
  split; [reflexivity|].
  exact (proj1 (H B)).
Defined.

(** X10. In a zone [getTime] returns for, [dayName] and [monthName] are
    [undefined] exactly when the day of the week or the month of the date
    is outside the array; [dayOfMonth] and [year] are the fields of the
    date; and within the calendar ranges equal names in two returned
    values mean equal days and equal months. *)
Theorem getTime_names_follow_calendar :
  forall host w,
    zone_accepted host (this w) = true ->
    exists tv,
    fst (getTime host w) = Returns tv
    /\ (dayName tv = None <-> ~ 0 <= getDay (raw tv) < 7)
    /\ (monthName tv = None <-> ~ 0 <= getMonth (raw tv) < 12)
    /\ dayOfMonth tv = getDate (raw tv)
    /\ year tv = getFullYear (raw tv)
    /\ (forall host' w' tv',
          fst (getTime host' w') = Returns tv' ->
          calendar_date (raw tv) -> calendar_date (raw tv') ->
          (dayName tv = dayName tv' -> getDay (raw tv) = getDay (raw tv')) /\
          (monthName tv = monthName tv' -> getMonth (raw tv) = getMonth (raw tv'))).
Proof.
  intros host w A. rewrite (getTime_returns host w A). cbn [fst].
  eexists. split; [reflexivity|].
  rewrite timeValue_raw. set (date := date_read host w).
  split; [apply (array_get_None dayNames)|].
  split; [apply (array_get_None monthNames)|].
  split; [reflexivity|]. split; [reflexivity|].
  intros host' w' tv' R'. rewrite getTime_run in R'. cbn [fst] in R'.
  destruct (zone_accepted host' (this w')); [|discriminate].
  injection R' as <-.
  rewrite ?timeValue_raw. set (date' := date_read host' w').
  intros (Hm & _ & Hd & _) (Hm' & _ & Hd' & _).
  change (dayName (timeValue (format24 (this w)) date))
    with (array_get dayNames (getDay date)).
  change (monthName (timeValue (format24 (this w)) date))
    with (array_get monthNames (getMonth date)).
  change (dayName (timeValue (format24 (this w')) date'))
    with (array_get dayNames (getDay date')).
  change (monthName (timeValue (format24 (this w')) date'))
    with (array_get monthNames (getMonth date')).
  split.
  - apply (names_distinct dayNames 7); [vm_compute; reflexivity | lia | lia].
  - apply (names_distinct monthNames 12); [vm_compute; reflexivity | lia | lia].
Qed.

Lemma getTime_names_follow_calendar_witness :
  zone_accepted afternoon_host (this (new_TimeModel afternoon_host)) = true
  /\ exists tv,
       fst (getTime afternoon_host (new_TimeModel afternoon_host)) = Returns tv /\
       dayOfMonth tv = getDate (raw tv) /\ year tv = getFullYear (raw tv).
Proof.
  split; [reflexivity|].
  destruct (getTime_names_follow_calendar afternoon_host
              (new_TimeModel afternoon_host) eq_refl)
    as (tv & R & _ & _ & D & Y & _).
  exists tv. repeat split; assumption.
Defined.
End TimeExtras.

Module TimeExtraFacts2.
Import TimeModel TimeSpec TimeFacts TimeExtra TimeExtraFacts.

Lemma hour_positions h m (f1 f2 : bool) :
  0 <= h < 24 -> 0 <= m < 60 ->
  same_direction (hour_of (if f1 then h else to12 h) m)
                 (hour_of (if f2 then h else to12 h) m) = true.
Proof.
  intros Hh Hm.
  assert (P : hour_positions_agree h m = true)
    by (apply (forall_below2 hour_positions_agree 24 60);
        [vm_compute; reflexivity | exact Hh | exact Hm]).
  unfold hour_positions_agree in P.
  apply andb_true_iff in P as [P P4]. apply andb_true_iff in P as [P P3].
  apply andb_true_iff in P as [P1 P2].
  destruct f1, f2; assumption.
Qed.

End TimeExtraFacts2.

Section TimeExtras2.
Import TimeModel TimeSpec TimeFacts TimeExtra TimeExtraFacts TimeExtraFacts2 Scenario.

(** X11. [setFormat] does not move the hands: in a zone [getTime] returns
    for, [getHandAngles] returns before and after it, and for a date
    within the calendar ranges the hour angle before and after is the same
    double or differs by exactly one full turn of 360, and the minute and
    second angles are unchanged. *)
Theorem setFormat_keeps_hour_hand :
  forall host w format,
    zone_accepted host (this w) = true ->
    exists tv a a',
    fst (getTime host w) = Returns tv /\
    fst (getHandAngles host w) = Returns a /\
    fst (getHandAngles host (snd (setFormat format w))) = Returns a' /\
    (calendar_date (raw tv) ->
     same_direction (hour a) (hour a') = true /\
     minute a' = minute a /\ second a' = second a).
Proof.
  intros host w format A.
  rewrite !getHandAngles_run, !getTime_run.
  change (zone_accepted host (this (snd (setFormat format w))))
    with (zone_accepted host (this w)).
  rewrite A. cbn [fst].
  do 3 eexists. do 3 (split; [reflexivity|]).
  rewrite !handAngles_eq. cbn [hour minute second].
  rewrite !timeValue_raw, !timeValue_rawMinutes, !timeValue_rawSeconds,
    !timeValue_rawHours.
  change (date_read host (snd (setFormat format w))) with (date_read host w).
  set (date := date_read host w).
  intros (_ & _ & _ & Hh & Hm & _).
  pose proof (hour_positions (getHours date) (getMinutes date)
                (format24 (this w)) (format24 (this (snd (setFormat format w)))) Hh Hm)
    as P.
  repeat split; assumption.
Qed.

Lemma setFormat_keeps_hour_hand_witness :
  zone_accepted afternoon_host (this (new_TimeModel afternoon_host)) = true
  /\ exists tv a a',
       fst (getTime afternoon_host (new_TimeModel afternoon_host)) = Returns tv /\
       fst (getHandAngles afternoon_host (new_TimeModel afternoon_host)) = Returns a /\
       fst (getHandAngles afternoon_host
              (snd (setFormat (Js.Str "24h") (new_TimeModel afternoon_host))))
         = Returns a' /\
       calendar_date (raw tv) /\
       same_direction (hour a) (hour a') = true.
Proof.
  split; [reflexivity|].
  destruct (setFormat_keeps_hour_hand afternoon_host
              (new_TimeModel afternoon_host) (Js.Str "24h") eq_refl)
    as (tv & a & a' & R & Ra & Ra' & H).
  exists tv, a, a'. do 3 (split; [assumption|]).
  assert (C : calendar_date (raw tv)).
  { rewrite (getTime_returns afternoon_host (new_TimeModel afternoon_host) eq_refl) in R.
    injection R as <-. vm_compute. repeat split; discriminate. }
  split; [exact C|].
  exact (proj1 (H C)).
Defined.

(** X12. The hands move forward: the second and minute angles grow from one
    second to the next within a minute, the minute angle grows across the
    change of minute, and the hour angle grows from one minute to the next
    and across the change of hour, up to 23:59. *)
Theorem hands_advance :
  forall tv tv',
    let a := handAngles tv in
    let a' := handAngles tv' in
    0 <= rawHours tv < 24 -> 0 <= rawMinutes tv < 60 -> 0 <= rawSeconds tv < 60 ->
    (rawMinutes tv' = rawMinutes tv -> rawSeconds tv' = rawSeconds tv + 1 ->
     rawSeconds tv < 59 ->
     (second a <? second a')%float = true /\ (minute a <? minute a')%float = true)
    /\ (rawMinutes tv' = rawMinutes tv + 1 -> rawSeconds tv' = 0 ->
        rawMinutes tv < 59 -> rawSeconds tv = 59 ->
        (minute a <? minute a')%float = true)
    /\ (rawHours tv' = rawHours tv -> rawMinutes tv' = rawMinutes tv + 1 ->
        rawMinutes tv < 59 ->
        (hour a <? hour a')%float = true)
    /\ (rawHours tv' = rawHours tv + 1 -> rawMinutes tv' = 0 ->
        rawHours tv < 23 -> rawMinutes tv = 59 ->
        (hour a <? hour a')%float = true).
Proof.
  intros tv tv' a a' Hh Hm Hs. subst a a'. rewrite !handAngles_eq.
  cbn [hour minute second]. split; [|split; [|split]].
  - intros -> -> L.
    assert (P : seconds_advance (rawMinutes tv) (rawSeconds tv) = true)
      by (apply (forall_below2 seconds_advance 60 59);
          [vm_compute; reflexivity | lia | lia]).
    apply andb_true_iff in P. exact P.
  - intros -> -> L ->.
    assert (P : minutes_advance 0 (rawMinutes tv) = true)
      by (apply (forall_below2 minutes_advance 24 59);
          [vm_compute; reflexivity | lia | lia]).
    apply andb_true_iff in P. apply P.
  - intros -> -> L.
    assert (P : minutes_advance (rawHours tv) (rawMinutes tv) = true)
      by (apply (forall_below2 minutes_advance 24 59);
          [vm_compute; reflexivity | lia | lia]).
    apply andb_true_iff in P. apply P.
  - intros -> -> L ->.
    apply (forall_below hours_advance 23); [vm_compute; reflexivity | lia].
Qed.

Lemma hands_advance_witness :
  (second (handAngles (tv_at 7 30 0)) <? second (handAngles (tv_at 7 30 1)))%float = true
  /\ (minute (handAngles (tv_at 7 30 0)) <? minute (handAngles (tv_at 7 30 1)))%float = true.
Proof.
  assert (H1 : 0 <= 7 < 24) by lia.
  assert (H2 : 0 <= 30 < 60) by lia.
  assert (H3 : 0 <= 0 < 60) by lia.
  assert (H4 : 0 < 59) by lia.
  exact (proj1 (hands_advance (tv_at 7 30 0) (tv_at 7 30 1) H1 H2 H3)
           eq_refl eq_refl H4).
Defined.
End TimeExtras2.

Module TimeExtraFacts3.
Import TimeModel TimeSpec TimeFacts TimeExtra TimeExtraFacts.

Lemma _onTick_callback host w :
  callback (this (snd (_onTick host w))) = callback (this w) /\
  timezone (this (snd (_onTick host w))) = timezone (this w) /\
  format24 (this (snd (_onTick host w))) = format24 (this w) /\
  animationFrameId (this (snd (_onTick host w))) = animationFrameId (this w).
Proof.
  rewrite _onTick_fields. destruct (drifted host w); repeat split.
Qed.

(** What a tick that returns adds to the trace. *)
Lemma _onTick_trace host w :
  zone_accepted host (this w) = true ->
  let w' := snd (_onTick host w) in
  let k := clock_reads (browser w') in
  trace (browser w') =
  (trace (browser w)
   ++ match callback (this w) with
      | Some cb => [Called cb (snapshot host (this w') (k - 2))]
      | None => []
      end
   ++ [Dispatched (tick (snapshot host (this w') (k - 1)))])%list.
Proof.
  unfold zone_accepted, snapshot, date_at. intros A.
  run_onTick host w; try discriminate;
    repeat (simpl;
            match goal with
            | H : (timezone _ =? "local")%string = _ |- _ => rewrite H
            end);
    rewrite <- ?app_assoc, ?Nat.sub_0_r; reflexivity.
Qed.

Lemma ticks_app w l :
  List.length (filter (fun e => match e with
                                | Dispatched (tick _) => true
                                | _ => false
                                end) (trace (browser w) ++ l))
  = (ticks w + List.length (filter (fun e => match e with
                                | Dispatched (tick _) => true
                                | _ => false
                                end) l))%nat.
Proof. unfold ticks. rewrite filter_app, length_app. reflexivity. Qed.

Lemma _onTick_ticks host w :
  zone_accepted host (this w) = true ->
  ticks (snd (_onTick host w)) = S (ticks w).
Proof.
  intros A. unfold ticks at 1. rewrite (_onTick_trace host w A), ticks_app.
  destruct (callback (this w)); simpl; lia.
Qed.

Lemma _onTick_calls_none host w :
  zone_accepted host (this w) = true ->
  callback (this w) = None -> calls (snd (_onTick host w)) = calls w.
Proof.
  intros A C. unfold calls at 1. rewrite (_onTick_trace host w A), C. simpl.
  rewrite filter_app, length_app. simpl. unfold calls. lia.
Qed.

(** A tick that throws leaves the counts as they were. *)
Lemma _onTick_thrown_counts host w :
  zone_accepted host (this w) = false ->
  ticks (snd (_onTick host w)) = ticks w /\
  calls (snd (_onTick host w)) = calls w.
Proof.
  intros A. unfold ticks, calls. rewrite (_onTick_thrown_trace host w A).
  split; reflexivity.
Qed.

Lemma filter_sub h (l : list Timer) :
  NoDup (map handle l) ->
  NoDup (map handle (filter (fun t => negb (handle t =? h)) l)).
Proof.
  intros ND. induction l as [|t l IH]; [constructor|].
  simpl in *. inversion ND as [|? ? Nt NDl]; subst.
  destruct (negb (handle t =? h)); simpl; [|apply IH, NDl].
  constructor; [|apply IH, NDl].
  intros I. apply Nt. apply in_map_iff in I as (x & E & Hx).
  apply filter_In in Hx as [Hx _]. rewrite <- E. apply in_map, Hx.
Qed.

Lemma filter_handle_length h (l : list Timer) :
  NoDup (map handle l) -> In h (map handle l) ->
  S (List.length (filter (fun t => negb (handle t =? h)) l)) = List.length l.
Proof.
  induction l as [|t l IH]; intros ND I; [contradiction|].
  simpl in *. inversion ND as [|? ? Nt NDl]; subst.
  destruct (handle t =? h) eqn:E; simpl.
  - apply Z.eqb_eq in E. f_equal.
    assert (F : forall x, In x l -> negb (handle x =? h) = true).
    { intros x Hx. apply negb_true_iff, Z.eqb_neq. intros Ex.
      apply Nt. rewrite E, <- Ex. apply in_map, Hx. }
    clear -F. induction l as [|x l IH]; [reflexivity|]. simpl.
    rewrite (F x) by (left; reflexivity). simpl. f_equal.
    apply IH. intros; apply F; right; assumption.
  - f_equal. apply IH; [exact NDl|].
    destruct I as [I|I]; [|exact I]. apply Z.eqb_neq in E. contradiction.
Qed.

Lemma existsb_handle h (l : list Timer) :
  existsb (fun t => handle t =? h) l = true <-> In h (map handle l).
Proof.
  rewrite existsb_exists, in_map_iff. split.
  - intros (t & I & E). apply Z.eqb_eq in E. eauto.
  - intros (t & E & I). exists t. split; [exact I | apply Z.eqb_eq, E].
Qed.

(** The world in which the closure of timeout [h] runs. *)
Lemma fire_inv host h w w' :
  fire host h w = Some w' ->
  In h (map handle (timers (browser w))) /\
  w' = snd (timeout_closure host
         (mkWorld (this w)
            (mkBrowser (clock_reads (browser w))
               (filter (fun t => negb (handle t =? h)) (timers (browser w)))
               (next_handle (browser w)) (frame_requests (browser w))
               (trace (browser w))))).
Proof.
  unfold fire. intros F.
  destruct (existsb (fun t => handle t =? h) (timers (browser w))) eqn:E;
    [|discriminate].
  injection F as <-. split; [apply existsb_handle, E|]. reflexivity.
Qed.

(** A timeout whose tick throws is gone and nothing takes its place. *)
Lemma fire_thrown host h w w' :
  zone_accepted host (this w) = false ->
  timers_well_formed (browser w) ->
  fire host h w = Some w' ->
  timers (browser w') = filter (fun t => negb (handle t =? h)) (timers (browser w)) /\
  S (List.length (timers (browser w'))) = List.length (timers (browser w)) /\
  trace (browser w') = trace (browser w) /\
  next_handle (browser w') = next_handle (browser w) /\
  timezone (this w') = timezone (this w) /\
  callback (this w') = callback (this w).
Proof.
  intros A [ND B] F. apply fire_inv in F as [I ->].
  set (w1 := mkWorld _ _).
  rewrite timeout_closure_run. change (this w1) with (this w). rewrite A.
  pose proof (_onTick_browser host w1) as (Ht & Hn & _ & _).
  pose proof (_onTick_callback host w1) as (Hc & Hz & _).
  cbn [browser timers next_handle w1 this] in Ht, Hn, Hc, Hz.
  rewrite Ht, Hn, Hc, Hz, (_onTick_thrown_trace host w1 A).
  repeat split. apply filter_handle_length; assumption.
Qed.

Lemma fire_effects host h w w' :
  zone_accepted host (this w) = true ->
  timers_well_formed (browser w) ->
  fire host h w = Some w' ->
  timers_well_formed (browser w') /\
  List.length (timers (browser w')) = List.length (timers (browser w)) /\
  ticks w' = S (ticks w) /\
  calls w' = (calls w + match callback (this w) with Some _ => 1 | None => 0 end)%nat /\
  callback (this w') = callback (this w) /\
  next_handle (browser w') = next_handle (browser w) + 1 /\
  timezone (this w') = timezone (this w).
Proof.
  intros A [ND B] F. apply fire_inv in F as [I ->].
  set (w1 := mkWorld _ _).
  rewrite timeout_closure_run. change (this w1) with (this w). rewrite A.
  assert (A1 : zone_accepted host (this w1) = true) by exact A.
  pose proof (_onTick_browser host w1) as (Ht & Hn & _ & _).
  pose proof (_onTick_callback host w1) as (Hc & Hz & _).
  cbn [browser timers next_handle w1 this] in Ht, Hn, Hc, Hz.
  rewrite _scheduleNextTick_run. cbn [snd browser timers next_handle this].
  rewrite Ht, Hn, Hc, Hz.
  set (rest := filter (fun t => negb (handle t =? h)) (timers (browser w))).
  assert (Sub : forall t, In t rest -> In t (timers (browser w)))
    by (intros t Ht'; apply filter_In in Ht' as [Ht' _]; exact Ht').
  unfold timers_well_formed. cbn [timers next_handle].
  split; [split|].
  - rewrite map_app. simpl. apply NoDup_app; [| repeat constructor; intros [] |].
    + apply filter_sub, ND.
    + intros x Hx [<-|[]]. apply in_map_iff in Hx as (t & E & Ht').
      rewrite Forall_forall in B. specialize (B t (Sub t Ht')). lia.
  - apply Forall_app. split.
    + apply Forall_forall. intros t Ht'. rewrite Forall_forall in B.
      specialize (B t (Sub t Ht')). lia.
    + repeat constructor. simpl. lia.
  - split; [|split; [|split; [|split; [|split]]]].
    + rewrite length_app. simpl. subst rest.
      pose proof (filter_handle_length h _ ND I). lia.
    + transitivity (ticks (snd (_onTick host w1))); [reflexivity|].
      rewrite (_onTick_ticks host w1 A1). reflexivity.
    + change (calls (snd (_onTick host w1)) =
              (calls w + match callback (this w) with Some _ => 1 | None => 0 end)%nat).
      destruct (callback (this w)) as [cb|] eqn:C.
      * rewrite (_onTick_calls host w1 cb A1 C). unfold calls. simpl. lia.
      * rewrite (_onTick_calls_none host w1 A1 C). unfold calls. simpl. lia.
    + reflexivity.
    + reflexivity.
    + reflexivity.
Qed.
End TimeExtraFacts3.

Module TimeExtraFacts4.
Import TimeModel TimeSpec TimeFacts TimeExtra TimeExtraFacts TimeExtraFacts3.

Lemma zone_accepted_timezone host f f' :
  timezone f' = timezone f -> zone_accepted host f' = zone_accepted host f.
Proof. unfold zone_accepted. intros ->. reflexivity. Qed.

(** The only pending timeout can run. *)
Lemma one_loop_pending host cb w :
  one_loop cb w ->
  exists t w', timers (browser w) = [t] /\ fire_pending host w = Some w' /\
               fire host (handle t) w = Some w'.
Proof.
  intros (C & WF & L). unfold fire_pending.
  destruct (timers (browser w)) as [|t [|? ?]] eqn:T; try discriminate.
  destruct (fire host (handle t) w) as [w'|] eqn:F.
  - exists t, w'. repeat split. exact F.
  - exfalso. unfold fire in F. rewrite T in F. simpl in F.
    rewrite Z.eqb_refl in F. discriminate.
Qed.

Lemma one_loop_fire host cb w :
  zone_accepted host (this w) = true ->
  one_loop cb w ->
  exists w', fire_pending host w = Some w' /\
             zone_accepted host (this w') = true /\ one_loop cb w' /\
             calls w' = S (calls w) /\ ticks w' = S (ticks w).
Proof.
  intros A H. destruct (one_loop_pending host cb w H) as (t & w' & T & P & F).
  destruct H as (C & WF & L).
  pose proof (fire_effects host (handle t) w w' A WF F)
    as (WF' & L' & Tk & Ca & Cb & _ & Z).
  exists w'. split; [exact P|]. rewrite C in Ca, Cb.
  split; [rewrite (zone_accepted_timezone host _ _ Z); exact A|].
  split; [|split; [lia | exact Tk]].
  split; [exact Cb|]. split; [exact WF'|]. rewrite L'. exact L.
Qed.

Lemma one_loop_run host cb n : forall w,
  zone_accepted host (this w) = true ->
  one_loop cb w ->
  exists w', run_ticks host n w = Some w' /\ one_loop cb w' /\
             calls w' = (calls w + n)%nat /\ ticks w' = (ticks w + n)%nat.
Proof.
  induction n as [|n IH]; intros w A H; simpl.
  - exists w. repeat split; try apply H; lia.
  - destruct (one_loop_fire host cb w A H) as (w1 & -> & A1 & H1 & C1 & T1).
    destruct (IH w1 A1 H1) as (w' & R & H' & C' & T').
    exists w'. split; [exact R|]. split; [exact H'|]. split; lia.
Qed.

(** A new model is in the zone 'local', which [getTime] never rejects. *)
Lemma start_zone_accepted host cb :
  zone_accepted host (this (snd (start host cb (new_TimeModel host)))) = true.
Proof. reflexivity. Qed.

Lemma start_one_loop host cb : one_loop cb (snd (start host cb (new_TimeModel host))).
Proof.
  split; [reflexivity|]. split; [|reflexivity].
  split; simpl.
  - repeat constructor. intros [].
  - repeat constructor.
Qed.

(** A loop whose zone is rejected ends at its next timeout. *)
Lemma one_loop_thrown host cb w :
  zone_accepted host (this w) = false ->
  one_loop cb w ->
  exists w', fire_pending host w = Some w' /\
             timers (browser w') = [] /\
             trace (browser w') = trace (browser w).
Proof.
  intros A H. destruct (one_loop_pending host cb w H) as (t & w' & T & P & F).
  destruct H as (C & WF & L).
  pose proof (fire_thrown host (handle t) w w' A WF F) as (Tm & _ & Tr & _).
  exists w'. split; [exact P|]. split; [|exact Tr].
  rewrite Tm, T. simpl. rewrite Z.eqb_refl. reflexivity.
Qed.
End TimeExtraFacts4.

Section TimeExtras4.
Import TimeModel TimeSpec TimeFacts TimeExtra TimeExtraFacts TimeExtraFacts3
  TimeExtraFacts4 Scenario.

(** X13. In a zone [getTime] returns for, when the pending timeouts have
    distinct handles, all handed out before, running one of them keeps
    that so and keeps their number: the timeout that ran is replaced by a
    new one. The run dispatches exactly one [tick] event and calls the
    callback once when one is registered. *)
Theorem fire_replaces_timeout :
  forall host h w w',
    zone_accepted host (this w) = true ->
    timers_well_formed (browser w) ->
    fire host h w = Some w' ->
    timers_well_formed (browser w') /\
    List.length (timers (browser w')) = List.length (timers (browser w)) /\
    ticks w' = S (ticks w) /\
    calls w' = (calls w + match callback (this w) with Some _ => 1 | None => 0 end)%nat /\
    callback (this w') = callback (this w).
Proof.
  intros host h w w' Z WF F.
  pose proof (fire_effects host h w w' Z WF F) as (A & B & C & D & E & _).
  repeat split; try assumption; apply A.
Qed.

Lemma fire_replaces_timeout_witness :
  (zone_accepted quarter_host
     (this (snd (start quarter_host 3%nat (new_TimeModel quarter_host)))) = true
   /\ timers_well_formed
        (browser (snd (start quarter_host 3%nat (new_TimeModel quarter_host)))))
  /\ exists w',
       fire quarter_host 1 (snd (start quarter_host 3%nat (new_TimeModel quarter_host)))
       = Some w' /\
       List.length (timers (browser w')) = 1%nat /\ ticks w' = 1%nat /\ calls w' = 1%nat.
Proof.
  assert (WF : timers_well_formed
                 (browser (snd (start quarter_host 3%nat (new_TimeModel quarter_host))))).
  { split; simpl; repeat constructor. intros []. }
  split; [split; [reflexivity | exact WF]|].
  eexists. split; [reflexivity|].
  pose proof (fire_replaces_timeout quarter_host 1
                (snd (start quarter_host 3%nat (new_TimeModel quarter_host)))
                _ eq_refl WF eq_refl) as (_ & L & T & C & _).
  split; [exact L|]. split; [exact T | exact C].
Defined.

(** X14. After [start] on a new model, [n] runs of the pending timeout give
    [n] calls of the callback and [n] [tick] events, and one timeout is
    pending again: the loop never ends by itself. *)
Theorem tick_loop_runs_on :
  forall host cb n,
    exists w',
      run_ticks host n (snd (start host cb (new_TimeModel host))) = Some w' /\
      calls w' = n /\ ticks w' = n /\
      List.length (timers (browser w')) = 1%nat /\
      callback (this w') = Some cb.
Proof.
  intros host cb n.
  destruct (one_loop_run host cb n _ (start_zone_accepted host cb)
              (start_one_loop host cb))
    as (w' & R & (C & _ & L) & Ca & Tk).
  exists w'. repeat split; try assumption.
Qed.

(** X15. In a zone [getTime] returns for, a tick returns; it calls the
    callback first and dispatches the [tick] event after it, each with a
    time value of its own, read from the clock one after the other with
    the drift correction of this tick applied. In a zone [getTime] rejects
    the tick throws [RangeError] before it calls the callback or
    dispatches an event. *)
Theorem _onTick_snapshots :
  forall host w,
    let w' := snd (_onTick host w) in
    let k := clock_reads (browser w') in
    (zone_accepted host (this w) = true ->
     fst (_onTick host w) = Returns tt /\
     trace (browser w') =
       (trace (browser w)
        ++ match callback (this w) with
           | Some cb => [Called cb (snapshot host (this w') (k - 2))]
           | None => []
           end
        ++ [Dispatched (tick (snapshot host (this w') (k - 1)))])%list)
    /\ (zone_accepted host (this w) = false ->
        fst (_onTick host w) = Throws RangeError /\
        trace (browser w') = trace (browser w)).
Proof.
  intros host w w' k. split; intros A.
  - split; [rewrite _onTick_completion, A; reflexivity|].
    apply (_onTick_trace host w A).
  - split; [rewrite _onTick_completion, A; reflexivity|].
    apply (_onTick_thrown_trace host w A).
Qed.

(** X16. When the clock does not run backwards between the two reads of a
    tick, the tick never raises [driftCorrection] and never lowers
    [lastSyncTime]; it changes nothing, or it lowers [driftCorrection] and
    moves the sum of the two fields forward by exactly 60000. *)
Theorem drift_correction_never_grows :
  forall host w,
    let k := clock_reads (browser w) in
    let old := this w in
    let new := this (snd (_onTick host w)) in
    Date_now host k <= Date_now host (S k) ->
    driftCorrection new <= driftCorrection old /\
    lastSyncTime old <= lastSyncTime new /\
    (new = old \/
     (driftCorrection new < driftCorrection old /\
      lastSyncTime new + driftCorrection new
      = lastSyncTime old + driftCorrection old + 60000)).
Proof.
  intros host w k old new M. subst new. rewrite _onTick_fields.
  unfold drifted. fold k old.
  destruct (Date_now host k - lastSyncTime old >? 60000) eqn:D.
  - apply Z.gtb_lt in D. rewrite _correctDrift_run.
    cbn [snd this driftCorrection lastSyncTime clock_read browser clock_reads].
    fold k old. split; [lia|]. split; [lia|]. right. lia.
  - split; [lia|]. split; [lia|]. left. reflexivity.
Qed.

Lemma drift_correction_never_grows_witness :
  Date_now late_host 1 <= Date_now late_host 2
  /\ driftCorrection (this (snd (_onTick late_host (new_TimeModel late_host)))) <= 0.
Proof.
  assert (M : Date_now late_host 1 <= Date_now late_host 2) by (simpl; lia).
  split; [exact M|].
  exact (proj1 (drift_correction_never_grows late_host (new_TimeModel late_host) M)).
Defined.

(** X17. [setTimezone] does not check the zone: given a zone other than
    'local' that [Intl.DateTimeFormat] rejects, it returns, stores the
    zone and dispatches [timezoneChanged]. From then on [getTime] and
    [getHandAngles] throw [RangeError], and a model with one loop running
    stops: the pending timeout runs, calls no callback, dispatches no
    [tick] and arms no timeout, so no timeout is left to run. *)
Theorem setTimezone_rejected_zone_stops_the_loop :
  forall host tz cb w,
    (tz =? "local")%string = false ->
    Intl_supports host tz = false ->
    one_loop cb w ->
    let w1 := snd (setTimezone tz w) in
    (fst (setTimezone tz w) = Returns tt /\
     fst (getTimezone w1) = Returns tz /\
     trace (browser w1) =
       (trace (browser w) ++ [Dispatched (timezoneChanged tz)])%list) /\
    (fst (getTime host w1) = Throws RangeError /\
     fst (getHandAngles host w1) = Throws RangeError) /\
    (exists w2,
       fire_pending host w1 = Some w2 /\
       timers (browser w2) = [] /\
       calls w2 = calls w /\ ticks w2 = ticks w /\
       fire_pending host w2 = None) /\
    (forall n, run_ticks host (S (S n)) w1 = None).
Proof.
  intros host tz cb w L S H w1.
  assert (A : zone_accepted host (this w1) = false)
    by (unfold zone_accepted; cbn [w1 this snd setTimezone timezone]; simpl;
        rewrite L, S; reflexivity).
  assert (H1 : one_loop cb w1) by exact H.
  destruct (one_loop_thrown host cb w1 A H1) as (w2 & P & T & Tr).
  assert (N : fire_pending host w2 = None)
    by (unfold fire_pending; rewrite T; reflexivity).
  split; [repeat split|].
  split; [split|].
  - rewrite (getTime_throws host w1 A). reflexivity.
  - rewrite getHandAngles_run, A. reflexivity.
  - split.
    + exists w2. split; [exact P|]. split; [exact T|].
      unfold calls, ticks. rewrite Tr.
      change (trace (browser w1))
        with (trace (browser w) ++ [Dispatched (timezoneChanged tz)])%list.
      rewrite !filter_app, !length_app. simpl.
      repeat split; try lia. exact N.
    + intros n. simpl. rewrite P, N. reflexivity.
Qed.

Lemma setTimezone_rejected_zone_stops_the_loop_witness :
  (("Invalid/Zone" =? "local")%string = false
   /\ Intl_supports quarter_host "Invalid/Zone" = false
   /\ one_loop 3%nat (snd (start quarter_host 3%nat (new_TimeModel quarter_host))))
  /\ fst (getTime quarter_host
            (snd (setTimezone "Invalid/Zone"
                    (snd (start quarter_host 3%nat (new_TimeModel quarter_host))))))
     = Throws RangeError
  /\ run_ticks quarter_host 2
       (snd (setTimezone "Invalid/Zone"
               (snd (start quarter_host 3%nat (new_TimeModel quarter_host)))))
     = None.
Proof.
  assert (H : one_loop 3%nat (snd (start quarter_host 3%nat (new_TimeModel quarter_host))))
    by apply start_one_loop.
  split; [split; [reflexivity | split; [reflexivity | exact H]]|].
  pose proof (setTimezone_rejected_zone_stops_the_loop quarter_host "Invalid/Zone"
                3%nat _ eq_refl eq_refl H) as (_ & (G & _) & _ & R).
  split; [exact G | exact (R O)].
Defined.
End TimeExtras4.

Section TimeExtras5.
Import TimeModel TimeSpec TimeFacts TimeExtra TimeExtraFacts TimeExtraFacts3
  TimeExtraFacts4 Scenario.

(** X25. [start] cancels nothing: with pending handles as in X13 it adds one
    timeout, due at the next full second, to those already pending, sets
    the callback, runs no tick at once and returns the
    [animationFrameId] it found. *)
Theorem start_adds_a_loop :
  forall host cb w,
    timers_well_formed (browser w) ->
    let w' := snd (start host cb w) in
    timers_well_formed (browser w') /\
    timers (browser w') =
      (timers (browser w)
       ++ [mkTimer (next_handle (browser w))
                   (1000 - Z.rem (Date_now host (clock_reads (browser w))) 1000)])%list /\
    callback (this w') = Some cb /\
    trace (browser w') = trace (browser w) /\
    fst (start host cb w) = Returns (animationFrameId (this w)).
Proof.
  intros host cb w [ND B] w'. subst w'.
  split; [|repeat split].
  unfold timers_well_formed.
  change (timers (browser (snd (start host cb w))))
    with (timers (browser w)
          ++ [mkTimer (next_handle (browser w))
                (1000 - Z.rem (Date_now host (clock_reads (browser w))) 1000)])%list.
  change (next_handle (browser (snd (start host cb w))))
    with (next_handle (browser w) + 1).
  split.
  - rewrite map_app. cbn [map handle]. apply NoDup_app; [exact ND | repeat constructor; intros [] |].
    intros x Hx [<-|[]]. apply in_map_iff in Hx as (t & E & Ht).
    rewrite Forall_forall in B. specialize (B t Ht). lia.
  - apply Forall_app. split.
    + apply Forall_forall. intros t Ht. rewrite Forall_forall in B.
      specialize (B t Ht). lia.
    + repeat constructor. cbn [handle]. lia.
Qed.

Lemma start_adds_a_loop_witness :
  timers_well_formed
    (browser (snd (start quarter_host 3%nat (new_TimeModel quarter_host))))
  /\ timers (browser (snd (start quarter_host 4%nat
                             (snd (start quarter_host 3%nat
                                     (new_TimeModel quarter_host))))))
     = [mkTimer 1 750; mkTimer 2 750].
Proof.
  assert (WF : timers_well_formed
                 (browser (snd (start quarter_host 3%nat (new_TimeModel quarter_host))))).
  { split; simpl; repeat constructor. intros []. }
  split; [exact WF|].
  exact (proj1 (proj2 (start_adds_a_loop quarter_host 4%nat
                         (snd (start quarter_host 3%nat (new_TimeModel quarter_host)))
                         WF))).
Defined.
End TimeExtras5.

Module SettingsFacts.
Import LocalStorage SettingsModel SettingsSpec.

Lemma lookup_update_same k v l : lookup k (update k v l) = Some v.
Proof.
  induction l as [|[k' v'] l IH]; simpl.
  - rewrite String.eqb_refl. reflexivity.
  - destruct (k' =? k)%string eqn:E; simpl; rewrite E; [reflexivity | exact IH].
Qed.

Lemma lookup_update_other k k' v l :
  k <> k' -> lookup k' (update k v l) = lookup k' l.
Proof.
  intros N. induction l as [|[k0 v0] l IH]; simpl.
  - destruct (k =? k')%string eqn:E; [|reflexivity].
    apply String.eqb_eq in E. contradiction.
  - destruct (k0 =? k)%string eqn:E; simpl.
    + apply String.eqb_eq in E. subst k0.
      destruct (k =? k')%string eqn:E'; [|reflexivity].
      apply String.eqb_eq in E'. contradiction.
    + destruct (k0 =? k')%string; [reflexivity | exact IH].
Qed.

Lemma includes_Some array v s :
  includes array v = Some s -> v = Js.Str s /\ In s array.
Proof.
  destruct v as [| |b|x|t]; simpl; try discriminate.
  destruct (existsb (String.eqb t) array) eqn:E; [|discriminate].
  intros H. injection H as <-. split; [reflexivity|].
  apply existsb_exists in E as (u & I & U). apply String.eqb_eq in U. subst. exact I.
Qed.

Lemma includes_In array s : In s array -> includes array (Js.Str s) = Some s.
Proof.
  intros I. simpl.
  replace (existsb (String.eqb s) array) with true; [reflexivity|].
  symmetry. apply existsb_exists. exists s. split; [exact I | apply String.eqb_refl].
Qed.

Lemma save_fields st :
  settings (_saveToStorage st) = settings st /\
  dispatched (_saveToStorage st) = dispatched st /\
  available (storage (_saveToStorage st)) = available (storage st).
Proof.
  unfold _saveToStorage. destruct (available (storage st)) eqn:A; simpl; auto.
Qed.

Lemma saved_effect e s :
  settings (dispatchEvent e (_saveToStorage s)) = settings s /\
  dispatched (dispatchEvent e (_saveToStorage s)) = (dispatched s ++ [e])%list.
Proof.
  destruct (save_fields s) as (S & D & _).
  unfold dispatchEvent. simpl. rewrite D. split; [exact S | reflexivity].
Qed.

Lemma settings_theme st1 st2 : settings st1 = settings st2 -> theme st1 = theme st2.
Proof. unfold settings. intros H. injection H as -> _ _ _. reflexivity. Qed.

Lemma settings_timeFormat st1 st2 :
  settings st1 = settings st2 -> timeFormat st1 = timeFormat st2.
Proof. unfold settings. intros H. injection H as _ -> _ _. reflexivity. Qed.

Lemma settings_soundEnabled st1 st2 :
  settings st1 = settings st2 -> soundEnabled st1 = soundEnabled st2.
Proof. unfold settings. intros H. injection H as _ _ _ ->. reflexivity. Qed.

Lemma setTheme_valid s st :
  s = "light" \/ s = "dark" ->
  setTheme (Js.Str s) st =
  dispatchEvent (themeChanged s)
    (_saveToStorage (mkState s (timeFormat st) (timezone st) (soundEnabled st)
                             (storage st) (dispatched st))).
Proof.
  intros V. unfold setTheme. rewrite includes_In by (simpl; destruct V; auto).
  reflexivity.
Qed.

Lemma setTimeFormat_valid s st :
  s = "12h" \/ s = "24h" ->
  setTimeFormat (Js.Str s) st =
  dispatchEvent (timeFormatChanged s)
    (_saveToStorage (mkState (theme st) s (timezone st) (soundEnabled st)
                             (storage st) (dispatched st))).
Proof.
  intros V. unfold setTimeFormat. rewrite includes_In by (simpl; destruct V; auto).
  reflexivity.
Qed.

Lemma theme_toggleTheme st :
  theme (toggleTheme st) = if (theme st =? "light")%string then "dark" else "light".
Proof.
  unfold toggleTheme.
  destruct (theme st =? "light")%string; rewrite setTheme_valid by auto;
    match goal with |- context [dispatchEvent ?e (_saveToStorage ?x)] =>
      exact (settings_theme _ _ (proj1 (saved_effect e x))) end.
Qed.

Lemma timeFormat_toggleTimeFormat st :
  timeFormat (toggleTimeFormat st) =
  if (timeFormat st =? "12h")%string then "24h" else "12h".
Proof.
  unfold toggleTimeFormat.
  destruct (timeFormat st =? "12h")%string; rewrite setTimeFormat_valid by auto;
    match goal with |- context [dispatchEvent ?e (_saveToStorage ?x)] =>
      exact (settings_timeFormat _ _ (proj1 (saved_effect e x))) end.
Qed.

Lemma save_lookup st :
  available (storage st) = true ->
  let i := items (storage (_saveToStorage st)) in
  lookup CONFIG.STORAGE_KEYS.THEME i = Some (theme st) /\
  lookup CONFIG.STORAGE_KEYS.TIME_FORMAT i = Some (timeFormat st) /\
  lookup CONFIG.STORAGE_KEYS.TIMEZONE i = Some (timezone st) /\
  lookup CONFIG.STORAGE_KEYS.SOUND_ENABLED i = Some (String_of_bool (soundEnabled st)).
Proof.
  intros A. unfold _saveToStorage. rewrite A. simpl.
  repeat split;
    repeat first [ apply lookup_update_same
                 | rewrite lookup_update_other by discriminate ].
Qed.

Lemma save_lookup_other st key :
  ~ In key settings_keys ->
  lookup key (items (storage (_saveToStorage st))) = lookup key (items (storage st)).
Proof.
  intros N. unfold _saveToStorage. destruct (available (storage st)); [|reflexivity].
  simpl. unfold settings_keys in N. simpl in N.
  rewrite !lookup_update_other; [reflexivity | | | |]; intros E; apply N; auto.
Qed.

Lemma or_keep_nonempty s d : d <> "" -> or_keep s d <> "".
Proof.
  intros D. unfold or_keep. destruct s as [x|]; [|exact D].
  destruct (x =? "")%string eqn:E; [exact D|]. apply String.eqb_neq, E.
Qed.

Lemma or_keep_Some s d : s <> "" -> or_keep (Some s) d = s.
Proof.
  intros N. unfold or_keep. apply String.eqb_neq in N. rewrite N. reflexivity.
Qed.

Lemma String_of_bool_true b : (String_of_bool b =? "true")%string = b.
Proof. destruct b; reflexivity. Qed.

Lemma save_reloadable st :
  available (storage st) = true -> fields_nonempty st ->
  reloadable (_saveToStorage st).
Proof.
  intros A (N1 & N2 & N3).
  destruct (save_fields st) as (S & _ & Av).
  destruct (save_lookup st A) as (L1 & L2 & L3 & L4).
  assert (E : theme (_saveToStorage st) = theme st /\
              timeFormat (_saveToStorage st) = timeFormat st /\
              timezone (_saveToStorage st) = timezone st /\
              soundEnabled (_saveToStorage st) = soundEnabled st).
  { unfold settings in S. injection S as -> -> -> ->. auto. }
  destruct E as (E1 & E2 & E3 & E4).
  split; [rewrite Av; exact A|]. split.
  - unfold fields_nonempty. rewrite E1, E2, E3. auto.
  - unfold constructor, _loadFromStorage. cbn [storage].
    rewrite Av, A. unfold settings. cbn [theme timeFormat timezone soundEnabled].
    rewrite L1, L2, L3, L4, E1, E2, E3, E4.
    rewrite !or_keep_Some by assumption.
    rewrite String_of_bool_true. reflexivity.
Qed.

Lemma reloadable_dispatch e st : reloadable st -> reloadable (dispatchEvent e st).
Proof. intros H. exact H. Qed.

Lemma constructor_reloadable sto : available sto = true -> reloadable (constructor sto).
Proof.
  intros A. unfold reloadable.
  assert (S : storage (constructor sto) = sto)
    by (unfold constructor, _loadFromStorage; simpl; rewrite A; reflexivity).
  rewrite S. split; [exact A|]. split; [|reflexivity].
  unfold constructor, _loadFromStorage. simpl. rewrite A. simpl.
  repeat split; apply or_keep_nonempty; discriminate.
Qed.

Lemma step_reloadable op st :
  (forall tz, op = OpSetTimezone tz -> tz <> "") ->
  reloadable st -> reloadable (step op st).
Proof.
  intros Tz (A & (N1 & N2 & N3) & R).
  assert (H : reloadable st) by (split; [exact A | split; [repeat split; assumption | exact R]]).
  destruct op as [v| |v| |tz|v|]; unfold step.
  - unfold setTheme. destruct (includes ["light"; "dark"] v) as [t|] eqn:I; [|exact H].
    apply includes_Some in I as [_ I].
    apply reloadable_dispatch, save_reloadable; [exact A|].
    repeat split; try assumption. simpl.
    destruct I as [<-|[<-|[]]]; discriminate.
  - unfold toggleTheme, setTheme.
    destruct (theme st =? "light")%string; simpl;
      apply reloadable_dispatch, save_reloadable; try exact A;
      repeat split; try assumption; discriminate.
  - unfold setTimeFormat. destruct (includes ["12h"; "24h"] v) as [t|] eqn:I; [|exact H].
    apply includes_Some in I as [_ I].
    apply reloadable_dispatch, save_reloadable; [exact A|].
    repeat split; try assumption. simpl.
    destruct I as [<-|[<-|[]]]; discriminate.
  - unfold toggleTimeFormat, setTimeFormat.
    destruct (timeFormat st =? "12h")%string; simpl;
      apply reloadable_dispatch, save_reloadable; try exact A;
      repeat split; try assumption; discriminate.
  - apply reloadable_dispatch, save_reloadable; [exact A|].
    repeat split; try assumption. simpl. apply (Tz tz eq_refl).
  - apply reloadable_dispatch, save_reloadable; [exact A|].
    repeat split; assumption.
  - apply reloadable_dispatch, save_reloadable; [exact A|].
    repeat split; assumption.
Qed.

Lemma run_reloadable ops : forall st,
  (forall tz, In (OpSetTimezone tz) ops -> tz <> "") ->
  reloadable st -> reloadable (run ops st).
Proof.
  induction ops as [|op ops IH]; intros st Tz H; simpl; [exact H|].
  apply IH.
  - intros tz I. apply Tz. right. exact I.
  - apply step_reloadable; [|exact H].
    intros tz ->. apply Tz. left. reflexivity.
Qed.
End SettingsFacts.


Section SettingsExtras.
Import LocalStorage SettingsModel SettingsSpec SettingsFacts SettingsScenario.

(** X18. Over a working store, after any sequence of calls that sets no
    empty timezone, a new model built on the store starts with the four
    settings of the old one. *)
Theorem settings_survive_reload :
  forall sto ops,
    available sto = true ->
    (forall tz, In (OpSetTimezone tz) ops -> tz <> "") ->
    let st := run ops (constructor sto) in
    settings (constructor (storage st)) = settings st.
Proof.
  intros sto ops A Tz st.
  apply (run_reloadable ops (constructor sto) Tz (constructor_reloadable sto A)).
Qed.

Lemma settings_survive_reload_witness :
  settings (constructor (storage (run preferences (constructor alarm_only))))
  = ("dark", "24h", "Asia/Tokyo", false).
Proof.
  assert (Tz : forall tz, In (OpSetTimezone tz) preferences -> tz <> "").
  { intros tz I. simpl in I.
    destruct I as [I|[I|[I|[I|[I|[]]]]]]; try discriminate.
    injection I as <-. discriminate. }
  exact (settings_survive_reload alarm_only preferences eq_refl Tz).
Defined.

(** X19. An empty timezone is stored but not read back: after
    [setTimezone('')] the model holds the empty string, and a new model
    built on the store starts in the default zone. *)
Theorem empty_timezone_is_lost_on_reload :
  forall st,
    available (storage st) = true ->
    let st' := setTimezone "" st in
    timezone st' = "" /\
    timezone (constructor (storage st')) = CONFIG.DEFAULT_TIMEZONE.
Proof.
  intros st A st'. split; [subst st'; unfold setTimezone; simpl;
                           destruct (save_fields (mkState (theme st) (timeFormat st) ""
                             (soundEnabled st) (storage st) (dispatched st)))
                             as (S & _); unfold settings in S; injection S as _ _ -> _;
                           reflexivity|].
  subst st'. unfold setTimezone. cbn [dispatchEvent storage].
  set (s := mkState _ _ _ _ _ _).
  destruct (save_lookup s A) as (_ & _ & L3 & _).
  destruct (save_fields s) as (_ & _ & Av).
  unfold constructor, _loadFromStorage. cbn [storage timezone].
  rewrite Av. subst s. cbn [storage]. rewrite A. cbn [timezone].
  cbn [timezone] in L3. rewrite L3. reflexivity.
Qed.

Lemma empty_timezone_is_lost_on_reload_witness :
  timezone (constructor (storage (setTimezone "" (constructor alarm_only)))) = "local".
Proof.
  exact (proj2 (empty_timezone_is_lost_on_reload (constructor alarm_only) eq_refl)).
Defined.

(** X20. [setTheme] changes nothing at all unless its argument is the
    string 'light' or 'dark'; then it sets the theme, keeps the other
    settings and dispatches one event. [toggleTheme] always ends in one of
    the two themes and always changes the theme, and twice in a row it
    gives back a theme that was one of the two. *)
Theorem setTheme_accepts_light_and_dark :
  (forall v st, v <> Js.Str "light" -> v <> Js.Str "dark" -> setTheme v st = st)
  /\ (forall s st,
        s = "light" \/ s = "dark" ->
        let st' := setTheme (Js.Str s) st in
        settings st' = (s, timeFormat st, timezone st, soundEnabled st) /\
        dispatched st' = (dispatched st ++ [themeChanged s])%list)
  /\ (forall st,
        let st' := toggleTheme st in
        (theme st' = "light" \/ theme st' = "dark") /\ theme st' <> theme st /\
        (theme st = "light" \/ theme st = "dark" ->
         theme (toggleTheme st') = theme st)).
Proof.
  split; [|split].
  - intros v st N1 N2. unfold setTheme.
    destruct (includes ["light"; "dark"] v) as [t|] eqn:I; [|reflexivity].
    apply includes_Some in I as [-> I]. simpl in I.
    destruct I as [<-|[<-|[]]]; contradiction.
  - intros s st V st'. subst st'. rewrite setTheme_valid by exact V.
    match goal with |- context [dispatchEvent ?e (_saveToStorage ?x)] =>
      destruct (saved_effect e x) as [A B] end.
    split; [exact A | exact B].
  - intros st st'. subst st'. rewrite !theme_toggleTheme.
    destruct (theme st =? "light")%string eqn:E.
    + apply String.eqb_eq in E. simpl.
      split; [auto|]. split; [rewrite E; discriminate|]. intros _. symmetry. exact E.
    + apply String.eqb_neq in E. simpl.
      split; [auto|]. split; [congruence|].
      intros [V|V]; [contradiction | symmetry; exact V].
Qed.
End SettingsExtras.

Module SettingsFacts2.
Import LocalStorage SettingsModel SettingsSpec SettingsFacts.

Lemma settings_step_ignored op st : ignored op = true -> step op st = st.
Proof.
  destruct op as [v| |v| |tz|v|]; simpl; try discriminate.
  - unfold setTheme. destruct (includes ["light"; "dark"] v); [discriminate | reflexivity].
  - unfold setTimeFormat. destruct (includes ["12h"; "24h"] v); [discriminate | reflexivity].
Qed.

(** Every call that is not ignored ends in a save and one event. *)
Lemma settings_step_saves op st :
  ignored op = false ->
  exists e s, step op st = dispatchEvent e (_saveToStorage s) /\
              storage s = storage st /\ dispatched s = dispatched st.
Proof.
  destruct op as [v| |v| |tz|v|]; simpl; intros G.
  - unfold setTheme. destruct (includes ["light"; "dark"] v); [|discriminate].
    eexists _, _. split; [reflexivity|]. split; reflexivity.
  - unfold toggleTheme, setTheme.
    destruct (theme st =? "light")%string; simpl;
      eexists _, _; (split; [reflexivity|]); split; reflexivity.
  - unfold setTimeFormat. destruct (includes ["12h"; "24h"] v); [|discriminate].
    eexists _, _. split; [reflexivity|]. split; reflexivity.
  - unfold toggleTimeFormat, setTimeFormat.
    destruct (timeFormat st =? "12h")%string; simpl;
      eexists _, _; (split; [reflexivity|]); split; reflexivity.
  - eexists _, _. split; [reflexivity|]. split; reflexivity.
  - eexists _, _. split; [reflexivity|]. split; reflexivity.
  - eexists _, _. split; [reflexivity|]. split; reflexivity.
Qed.
End SettingsFacts2.

Section SettingsExtras2.
Import LocalStorage SettingsModel SettingsSpec SettingsFacts SettingsFacts2
  SettingsScenario.

(** X21. [setTimeFormat] changes nothing unless its argument is '12h' or
    '24h'; [toggleTimeFormat] always ends in one of the two and changes
    the format. When the format was one of the two, handing the toggled
    format to [TimeModel.setFormat] flips the mode of the clock, and two
    toggles give back the format. *)
Theorem toggleTimeFormat_flips_clock_mode :
  (forall v st, v <> Js.Str "12h" -> v <> Js.Str "24h" -> setTimeFormat v st = st)
  /\ (forall st,
        let st' := toggleTimeFormat st in
        (timeFormat st' = "12h" \/ timeFormat st' = "24h") /\
        timeFormat st' <> timeFormat st)
  /\ (forall st w,
        timeFormat st = "12h" \/ timeFormat st = "24h" ->
        let mode f := TimeModel.format24
                        (TimeModel.this (snd (TimeModel.setFormat (Js.Str f) w))) in
        mode (getTimeFormat (toggleTimeFormat st)) = negb (mode (getTimeFormat st)) /\
        timeFormat (toggleTimeFormat (toggleTimeFormat st)) = timeFormat st).
Proof.
  split; [|split].
  - intros v st N1 N2. unfold setTimeFormat.
    destruct (includes ["12h"; "24h"] v) as [t|] eqn:I; [|reflexivity].
    apply includes_Some in I as [-> I]. simpl in I.
    destruct I as [<-|[<-|[]]]; contradiction.
  - intros st st'. subst st'. rewrite timeFormat_toggleTimeFormat.
    destruct (timeFormat st =? "12h")%string eqn:E.
    + apply String.eqb_eq in E. split; [auto|]. rewrite E. discriminate.
    + apply String.eqb_neq in E. split; [auto | congruence].
  - intros st w V mode. subst mode. unfold getTimeFormat.
    rewrite !timeFormat_toggleTimeFormat.
    destruct V as [V|V]; rewrite V; simpl; split; reflexivity.
Qed.

Lemma toggleTimeFormat_flips_clock_mode_witness :
  TimeModel.format24
    (TimeModel.this
       (snd (TimeModel.setFormat
               (Js.Str (getTimeFormat (toggleTimeFormat (constructor alarm_only))))
               (TimeModel.new_TimeModel Scenario.noon_host))))
  = negb (TimeModel.format24
            (TimeModel.this
               (snd (TimeModel.setFormat
                       (Js.Str (getTimeFormat (constructor alarm_only)))
                       (TimeModel.new_TimeModel Scenario.noon_host))))).
Proof.
  exact (proj1 (proj2 (proj2 toggleTimeFormat_flips_clock_mode)
                  (constructor alarm_only)
                  (TimeModel.new_TimeModel Scenario.noon_host)
                  (or_introl eq_refl))).
Defined.

(** X22. [setSoundEnabled] stores the truth value of its argument, keeps the
    other settings, dispatches one event with that boolean and writes
    'true' or 'false' to a working store. [toggleSound] negates the flag,
    and twice in a row gives it back. *)
Theorem setSoundEnabled_stores_a_boolean :
  forall v st,
    let st' := setSoundEnabled v st in
    settings st' = (theme st, timeFormat st, timezone st, Js.truthy v) /\
    dispatched st' = (dispatched st ++ [soundChanged (Js.truthy v)])%list /\
    (available (storage st) = true ->
     lookup CONFIG.STORAGE_KEYS.SOUND_ENABLED (items (storage st'))
     = Some (if Js.truthy v then "true" else "false")) /\
    soundEnabled (toggleSound st) = negb (soundEnabled st) /\
    soundEnabled (toggleSound (toggleSound st)) = soundEnabled st.
Proof.
  intros v st st'. subst st'. unfold setSoundEnabled.
  match goal with |- context [dispatchEvent ?e (_saveToStorage ?x)] =>
    destruct (saved_effect e x) as [A B]; set (s := x) in * end.
  split; [exact A|]. split; [exact B|]. split.
  - intros Av. destruct (save_lookup s Av) as (_ & _ & _ & L). exact L.
  - assert (T : forall st0, soundEnabled (toggleSound st0) = negb (soundEnabled st0)).
    { intros st0. unfold toggleSound, setSoundEnabled.
      match goal with |- context [dispatchEvent ?e (_saveToStorage ?x)] =>
        exact (settings_soundEnabled _ _ (proj1 (saved_effect e x))) end. }
    split; [apply T|]. rewrite !T. apply negb_involutive.
Qed.

(** X23. No sequence of calls changes an entry of the store under a key
    other than the four setting keys (the alarm entry among them), or
    whether the store works. *)
Theorem settings_leave_other_keys_alone :
  forall ops st key,
    ~ In key settings_keys ->
    lookup key (items (storage (run ops st))) = lookup key (items (storage st))
    /\ available (storage (run ops st)) = available (storage st).
Proof.
  induction ops as [|op ops IH]; intros st key N; simpl; [split; reflexivity|].
  destruct (IH (step op st) key N) as [L A]. rewrite L, A.
  destruct (ignored op) eqn:G.
  - rewrite settings_step_ignored by exact G. split; reflexivity.
  - destruct (settings_step_saves op st G) as (e & s & -> & S & _).
    cbn [dispatchEvent storage]. rewrite save_lookup_other by exact N.
    destruct (save_fields s) as (_ & _ & Av). rewrite Av, S. split; reflexivity.
Qed.

Lemma settings_leave_other_keys_alone_witness :
  lookup CONFIG.STORAGE_KEYS.ALARMS
    (items (storage (run preferences (constructor alarm_only))))
  = Some "{}".
Proof.
  assert (N : ~ In CONFIG.STORAGE_KEYS.ALARMS settings_keys).
  { simpl. intros [H|[H|[H|[H|[]]]]]; discriminate. }
  exact (proj1 (settings_leave_other_keys_alone preferences (constructor alarm_only)
                  CONFIG.STORAGE_KEYS.ALARMS N)).
Defined.

(** X24. The settings in memory after a call depend on the settings before,
    never on the store; a store that throws is left as it was; and a model
    built on such a store starts with the defaults. *)
Theorem settings_work_without_storage :
  (forall op st1 st2,
     settings st1 = settings st2 -> settings (step op st1) = settings (step op st2))
  /\ (forall op st, available (storage st) = false -> storage (step op st) = storage st)
  /\ (forall entries,
        settings (constructor (mkStore false entries))
        = (CONFIG.DEFAULT_THEME, CONFIG.DEFAULT_TIME_FORMAT,
           CONFIG.DEFAULT_TIMEZONE, CONFIG.DEFAULT_SOUND_ENABLED)).
Proof.
  split; [|split].
  - intros op st1 st2 H.
    assert (E : theme st1 = theme st2 /\ timeFormat st1 = timeFormat st2 /\
                timezone st1 = timezone st2 /\ soundEnabled st1 = soundEnabled st2)
      by (unfold settings in H; injection H as -> -> -> ->; auto).
    destruct E as (E1 & E2 & E3 & E4).
    destruct op as [v| |v| |tz|v|]; unfold step.
    + unfold setTheme. destruct (includes ["light"; "dark"] v); [|exact H].
      rewrite !(proj1 (saved_effect _ _)). unfold settings. simpl.
      rewrite E2, E3, E4. reflexivity.
    + unfold toggleTheme, setTheme. rewrite E1.
      destruct (theme st2 =? "light")%string; simpl;
        rewrite !(proj1 (saved_effect _ _)); unfold settings; simpl;
        rewrite E2, E3, E4; reflexivity.
    + unfold setTimeFormat. destruct (includes ["12h"; "24h"] v); [|exact H].
      rewrite !(proj1 (saved_effect _ _)). unfold settings. simpl.
      rewrite E1, E3, E4. reflexivity.
    + unfold toggleTimeFormat, setTimeFormat. rewrite E2.
      destruct (timeFormat st2 =? "12h")%string; simpl;
        rewrite !(proj1 (saved_effect _ _)); unfold settings; simpl;
        rewrite E1, E3, E4; reflexivity.
    + unfold setTimezone. rewrite !(proj1 (saved_effect _ _)). unfold settings. simpl.
      rewrite E1, E2, E4. reflexivity.
    + unfold setSoundEnabled. rewrite !(proj1 (saved_effect _ _)). unfold settings.
      simpl. rewrite E1, E2, E3. reflexivity.
    + unfold toggleSound, setSoundEnabled. rewrite !(proj1 (saved_effect _ _)).
      unfold settings. simpl. rewrite E1, E2, E3, E4. reflexivity.
  - intros op st A. destruct (ignored op) eqn:G.
    + rewrite settings_step_ignored by exact G. reflexivity.
    + destruct (settings_step_saves op st G) as (e & s & -> & S & _).
      cbn [dispatchEvent storage]. unfold _saveToStorage. rewrite S, A. exact S.
  - reflexivity.
Qed.
End SettingsExtras2.
